(** * Task-creation pipeline of the task_management sample: a shallow embedding

    The Python sources under [result-sample/task_management] are embedded as
    Rocq functions.  Python [str] values are lists of Unicode code points,
    exceptions are values of a small exception type threaded through a
    state-and-error monad, the wall clock and the operating system's entropy
    are oracles of the world state, and the in-memory repository is a finite
    map keyed by the task id. *)

From Stdlib Require Import ZArith NArith List String Ascii Bool Lia Floats Uint63 DecimalString.
From stdpp Require Import base option list gmap.

Import ListNotations.
Local Open Scope N_scope.
Local Open Scope list_scope.

(** ** Python strings *)

(** A Python [str] is a sequence of code points. *)
Definition str : Type := list N.

(** Decoder for the UTF-8 bytes of a Rocq string literal, so that the literals
    of the source (many of them Japanese) can be written as they are. *)
Fixpoint utf8_decode (bs : list N) : str :=
  match bs with
  | [] => []
  | b :: r =>
      if b <? 128 then b :: utf8_decode r
      else if b <? 224 then
        match r with
        | b1 :: r1 => ((b - 192) * 64 + (b1 - 128)) :: utf8_decode r1
        | _ => []
        end
      else if b <? 240 then
        match r with
        | b1 :: b2 :: r2 =>
            ((b - 224) * 4096 + (b1 - 128) * 64 + (b2 - 128)) :: utf8_decode r2
        | _ => []
        end
      else
        match r with
        | b1 :: b2 :: b3 :: r3 =>
            ((b - 240) * 262144 + (b1 - 128) * 4096 + (b2 - 128) * 64 + (b3 - 128))
              :: utf8_decode r3
        | _ => []
        end
  end.

Definition u (s : string) : str :=
  utf8_decode (map N_of_ascii (list_ascii_of_string s)).

Definition str_eqb (a b : str) : bool := bool_decide (a = b).

(** [Py_UNICODE_ISSPACE]: the code points [str.strip()] removes and the
    pattern class [\s] accepts. *)
Definition is_space (c : N) : bool :=
  ((9 <=? c) && (c <=? 13)) || ((28 <=? c) && (c <=? 32))
  || (c =? 133) || (c =? 160) || (c =? 5760)
  || ((8192 <=? c) && (c <=? 8202))
  || (c =? 8232) || (c =? 8233) || (c =? 8239) || (c =? 8287) || (c =? 12288).

Fixpoint lstrip (s : str) : str :=
  match s with
  | c :: r => if is_space c then lstrip r else s
  | [] => []
  end.

Definition rstrip (s : str) : str := rev (lstrip (rev s)).

(** [s.strip()] *)
Definition strip (s : str) : str := rstrip (lstrip s).

Definition is_upper_ascii (c : N) : bool := (65 <=? c) && (c <=? 90).
Definition is_lower_ascii (c : N) : bool := (97 <=? c) && (c <=? 122).
Definition is_digit_ascii (c : N) : bool := (48 <=? c) && (c <=? 57).
Definition is_alnum_ascii (c : N) : bool :=
  is_upper_ascii c || is_lower_ascii c || is_digit_ascii c.

Definition ascii_lower (c : N) : N := if is_upper_ascii c then c + 32 else c.

(** The interpreter's Unicode character database beyond ASCII.  It is not
    part of the repository; the embedding takes it as a parameter and fixes
    only what the interpreter does on ASCII. *)
Class UnicodeDB : Type := {
  (** [Py_UNICODE_ISALNUM] *)
  uni_isalnum : N -> bool;
  (** simple lower-case mapping, used by [re.IGNORECASE] *)
  uni_tolower : N -> N;
  (** full lower-casing of one code point between its left and right
      context, used by [str.lower()] *)
  uni_lower_full : str -> N -> str -> str;
  (** value of a decimal digit, used by [int()] *)
  uni_decimal : N -> option N
}.

(** The database of an interpreter that knows no character beyond ASCII. *)
Definition ascii_db : UnicodeDB :=
  {| uni_isalnum := fun _ => false;
     uni_tolower := fun c => c;
     uni_lower_full := fun _ c _ => [c];
     uni_decimal := fun _ => None |}.

Section Strings.
Context {U : UnicodeDB}.

(** [sre_lower_unicode] *)
Definition tolower_cp (c : N) : N :=
  if c <? 128 then ascii_lower c else uni_tolower c.

Fixpoint lower_from (left : str) (s : str) : str :=
  match s with
  | [] => []
  | c :: r =>
      (if c <? 128 then [ascii_lower c] else uni_lower_full left c r)
        ++ lower_from (left ++ [c]) r
  end.

(** [s.lower()] *)
Definition lower (s : str) : str := lower_from [] s.

(** [\w] of a [str] pattern *)
Definition is_word (c : N) : bool :=
  if c <? 128 then is_alnum_ascii c || (c =? 95) else uni_isalnum c.

End Strings.

Fixpoint starts_with (p s : str) : bool :=
  match p, s with
  | [], _ => true
  | a :: p', b :: s' => (a =? b) && starts_with p' s'
  | _ :: _, [] => false
  end.

(** [p in s] *)
Fixpoint contains (p s : str) : bool :=
  starts_with p s ||
  match s with
  | [] => false
  | _ :: r => contains p r
  end.

(** [s.replace(old, new)] for a non-empty [old]: the occurrences are taken
    from the left and do not overlap.  [skip] counts the code points of an
    occurrence still to be dropped. *)
Fixpoint replace_go (old new : str) (skip : nat) (s : str) : str :=
  match s with
  | [] => []
  | c :: r =>
      match skip with
      | S n => replace_go old new n r
      | O =>
          if starts_with old s
          then new ++ replace_go old new (Nat.pred (length old)) r
          else c :: replace_go old new O r
      end
  end.

Definition replace (old new s : str) : str := replace_go old new O s.

Definition mem_cp (c : N) (cs : str) : bool := existsb (N.eqb c) cs.

Fixpoint lstrip_chars (cs s : str) : str :=
  match s with
  | c :: r => if mem_cp c cs then lstrip_chars cs r else s
  | [] => []
  end.

(** [s.strip(cs)] *)
Definition strip_chars (cs s : str) : str :=
  rev (lstrip_chars cs (rev (lstrip_chars cs s))).

(** [html.escape(s)] with its default [quote=True] *)
Definition escape_cp (c : N) : str :=
  if c =? 38 then u "&amp;"
  else if c =? 60 then u "&lt;"
  else if c =? 62 then u "&gt;"
  else if c =? 34 then u "&quot;"
  else if c =? 39 then u "&#x27;"
  else [c].

Definition html_escape (s : str) : str := flat_map escape_cp s.

(** [str(n)] for a length *)
Definition str_of_nat (n : nat) : str :=
  u (NilZero.string_of_uint (Nat.to_uint n)).

(** The distinct code points of [s]; [len(set(s))] is the length of the list. *)
Fixpoint distinct (s : str) : str :=
  match s with
  | [] => []
  | c :: r => if mem_cp c r then distinct r else c :: distinct r
  end.

(** ** The regular expressions of the source

    The patterns of the source are built from literal code points, character
    classes, concatenation, alternation of words, a greedy or lazy repetition
    of a single class, and the end anchor.  [bt] is the backtracking matcher of
    [re]: it tries the alternatives in the order [re] does and hands what is
    left of the text to the continuation [k]. *)

Definition cset : Type := N -> bool.

Inductive regex : Type :=
| Eps
| Chr (p : cset)
| Cat (a b : regex)
| Alt (a b : regex)
| Rep (greedy : bool) (p : cset)
| Eos.

Definition orelse {A : Type} (x y : option A) : option A :=
  match x with
  | Some _ => x
  | None => y
  end.

Fixpoint rep_bt (greedy : bool) (p : cset) (k : str -> option str) (s : str)
  : option str :=
  match s with
  | [] => k []
  | c :: r =>
      if greedy
      then (if p c then orelse (rep_bt greedy p k r) (k s) else k s)
      else orelse (k s) (if p c then rep_bt greedy p k r else None)
  end.

Fixpoint bt (r : regex) (s : str) (k : str -> option str) : option str :=
  match r with
  | Eps => k s
  | Chr p =>
      match s with
      | c :: s' => if p c then k s' else None
      | [] => None
      end
  | Cat a b => bt a s (fun s' => bt b s' k)
  | Alt a b => orelse (bt a s k) (bt b s k)
  | Rep g p => rep_bt g p k s
  | Eos =>
      match s with
      | [] => k s
      | [10] => k s
      | _ => None
      end
  end.

(** A match of [r] at the start of [s]: what follows the match. *)
Definition match_at (r : regex) (s : str) : option str := bt r s Some.

(** [re.search(r, s)] as a truth value *)
Fixpoint search (r : regex) (s : str) : bool :=
  match match_at r s with
  | Some _ => true
  | None =>
      match s with
      | [] => false
      | _ :: t => search r t
      end
  end.

(** [re.sub(r, repl, s)] for a pattern that does not match the empty string
    (none of the patterns substituted in the source does): leftmost matches,
    not overlapping, the text between them kept.  [skip] counts the code
    points of the current match still to be dropped.  A match that consumes
    nothing is passed over. *)
Fixpoint sub_go (r : regex) (repl : str) (skip : nat) (s : str) : str :=
  match s with
  | [] => []
  | c :: t =>
      match skip with
      | S n => sub_go r repl n t
      | O =>
          match match_at r s with
          | Some rest =>
              if Nat.ltb (length rest) (length s)
              then repl ++ sub_go r repl (length t - length rest)%nat t
              else c :: sub_go r repl O t
          | None => c :: sub_go r repl O t
          end
      end
  end.

Definition re_sub (r : regex) (repl : str) (s : str) : str := sub_go r repl O s.

Fixpoint cat_list (rs : list regex) : regex :=
  match rs with
  | [] => Eps
  | [r] => r
  | r :: rs' => Cat r (cat_list rs')
  end.

Definition lit (c : N) : cset := N.eqb c.
Definition none_of (cs : str) : cset := fun c => negb (mem_cp c cs).
Definition one_of (cs : str) : cset := fun c => mem_cp c cs.
Definition any_cp : cset := fun _ => true.

Definition plus (p : cset) : regex := Cat (Chr p) (Rep true p).

Section Patterns.
Context {U : UnicodeDB}.

(** A cased literal under [re.IGNORECASE]: the text's code point is lowered
    and compared with the lowered literal and with the code points
    [sre_compile] lists as having the same upper case (dotless i for [i],
    long s for [s]). *)
Definition lit_ci (c : N) : cset := fun d =>
  let l := tolower_cp d in
  (l =? c) || ((c =? 105) && (l =? 305)) || ((c =? 115) && (l =? 383)).

Definition chr_i (c : N) : regex :=
  if is_upper_ascii c || is_lower_ascii c
  then Chr (lit_ci (ascii_lower c))
  else Chr (lit c).

(** The literal text [w] in a pattern compiled with [re.IGNORECASE]. *)
Definition word_i (w : string) : regex := cat_list (map chr_i (u w)).

Definition ws_star : regex := Rep true is_space.
Definition ws_plus : regex := plus is_space.

End Patterns.

(** ** Exceptions ([domain/exceptions/domain_exceptions.py]) *)

Inductive exn_class : Type :=
| Exception
| ValueError
| TypeError
| TaskDomainException
| TaskValidationException
| TaskNameValidationException
| TaskContextValidationException
| TaskBusinessRuleViolationException
| TaskSecurityException
| TaskInputSanitizationException
| TaskSecurityConstraintViolationException
| TaskSecurityThreatDetectedException
| TaskCreationException
| TaskFactoryException
| TaskEventGenerationException.

Global Instance exn_class_eq_dec : EqDecision exn_class.
Proof. solve_decision. Defined.

(** The base class of each class. *)
Definition base_class (c : exn_class) : option exn_class :=
  match c with
  | Exception => None
  | ValueError | TypeError | TaskDomainException => Some Exception
  | TaskValidationException | TaskSecurityException | TaskCreationException =>
      Some TaskDomainException
  | TaskNameValidationException | TaskContextValidationException
  | TaskBusinessRuleViolationException => Some TaskValidationException
  | TaskInputSanitizationException | TaskSecurityConstraintViolationException
  | TaskSecurityThreatDetectedException => Some TaskSecurityException
  | TaskFactoryException | TaskEventGenerationException => Some TaskCreationException
  end.

Fixpoint issubclass_fuel (n : nat) (c d : exn_class) : bool :=
  bool_decide (c = d) ||
  match n, base_class c with
  | S n', Some b => issubclass_fuel n' b d
  | _, _ => false
  end.

(** [issubclass(c, d)]; the hierarchy is three levels deep. *)
Definition issubclass (c d : exn_class) : bool := issubclass_fuel 3 c d.

(** An exception object: its class, its [message] (also what [str(e)]
    gives), and the attributes the subclasses add. *)
Record exn : Type := {
  exn_cls : exn_class;
  exn_message : str;
  exn_error_code : option str;
  exn_violations : list str;
  exn_threat_type : option str
}.

Definition isinstance (e : exn) (c : exn_class) : bool := issubclass (exn_cls e) c.

Definition builtin_exn (c : exn_class) (msg : str) : exn :=
  {| exn_cls := c; exn_message := msg; exn_error_code := None;
     exn_violations := []; exn_threat_type := None |}.

(** [TaskValidationException.__init__] and its subclasses *)
Definition validation_exn (c : exn_class) (msg : str) (violations : list str) : exn :=
  {| exn_cls := c; exn_message := msg; exn_error_code := Some (u "VALIDATION_ERROR");
     exn_violations := violations; exn_threat_type := None |}.

(** [TaskSecurityException.__init__] *)
Definition security_exn (c : exn_class) (msg : str) (threat_type : option str) : exn :=
  {| exn_cls := c; exn_message := msg; exn_error_code := Some (u "SECURITY_ERROR");
     exn_violations := []; exn_threat_type := threat_type |}.

(** [TaskCreationException.__init__] and its subclasses *)
Definition creation_exn (c : exn_class) (msg : str) : exn :=
  {| exn_cls := c; exn_message := msg; exn_error_code := Some (u "CREATION_ERROR");
     exn_violations := []; exn_threat_type := None |}.

(** ** Dates and identifiers *)

(** A naive [datetime], as its count of microseconds on the time line: the
    [microsecond] field is the count modulo one second, the other fields
    make up the rest.  Comparison is comparison of the counts. *)
Definition datetime : Type := Z.

Definition microsecond (d : datetime) : Z := (d mod 1000000)%Z.

(** [d.replace(microsecond=m)]: [ValueError] unless [0 <= m <= 999999]. *)
Definition replace_microsecond (d : datetime) (m : Z) : exn + datetime :=
  if ((0 <=? m) && (m <=? 999999))%Z
  then inr (d - microsecond d + m)%Z
  else inl (builtin_exn ValueError (u "microsecond must be in 0..999999")).

(** The text [d.isoformat()] gives; [datetime.fromisoformat] reads it back.
    Only this round trip is used by the source, so the text is kept as the
    value it denotes. *)
Record iso_string : Type := Iso { iso_value : datetime }.

Definition isoformat (d : datetime) : iso_string := Iso d.
Definition fromisoformat (i : iso_string) : datetime := iso_value i.

Local Open Scope Z_scope.

(** [_PyLong_DigitValue] below base 16 *)
Definition hex_value (c : N) : option Z :=
  if is_digit_ascii c then Some (Z.of_N c - 48)
  else if ((97 <=? c) && (c <=? 102))%N then Some (Z.of_N c - 87)
  else if ((65 <=? c) && (c <=? 70))%N then Some (Z.of_N c - 55)
  else None.

(** [Py_ISSPACE] *)
Definition is_cspace (c : N) : bool := (((9 <=? c) && (c <=? 13)) || (c =? 32))%N.

Fixpoint skip_cspace (s : str) : str :=
  match s with
  | c :: r => if is_cspace c then skip_cspace r else s
  | [] => []
  end.

(** The digits of [long_from_string_base]: hexadecimal digits, single
    underscores between them.  [prev] is the code point before [s]. *)
Fixpoint scan_hex (acc : Z) (prev : N) (s : str) : option (Z * str) :=
  match s with
  | c :: r =>
      if (c =? 95)%N then (if (prev =? 95)%N then None else scan_hex acc c r)
      else
        match hex_value c with
        | Some v => scan_hex (acc * 16 + v) c r
        | None => if (prev =? 95)%N then None else Some (acc, s)
        end
  | [] => if (prev =? 95)%N then None else Some (acc, [])
  end.

(** The optional sign of [PyLong_FromString]. *)
Definition split_sign (s : str) : Z * str :=
  match s with
  | 43%N :: r => (1, r)
  | 45%N :: r => (-1, r)
  | _ => (1, s)
  end.

(** The optional prefix [0x] or [0X] of base 16, and the one underscore
    allowed after it. *)
Definition skip_prefix16 (s : str) : str :=
  match s with
  | 48%N :: x :: r =>
      if ((x =? 120) || (x =? 88))%N
      then match r with
           | 95%N :: r' => r'
           | _ => r
           end
      else s
  | _ => s
  end.

Section Identifiers.
Context {U : UnicodeDB}.

(** [_PyUnicode_TransformDecimalAndSpaceToASCII], one code point *)
Definition int_ascii (c : N) : N :=
  if (c <? 127)%N then c
  else if is_space c then 32%N
  else match uni_decimal c with
       | Some d => (48 + d)%N
       | None => 63%N
       end.

(** [int(s, 16)]; [None] stands for its [ValueError]. *)
Definition int16 (s : str) : option Z :=
  let s1 := skip_cspace (map int_ascii s) in
  let '(sign, s2) := split_sign s1 in
  let s3 := skip_prefix16 s2 in
  match s3 with
  | [] => None
  | c :: _ =>
      match hex_value c with
      | None => None
      | Some _ =>
          match scan_hex 0 0%N s3 with
          | Some (v, rest) =>
              match skip_cspace rest with
              | [] => Some (sign * v)
              | _ :: _ => None
              end
          | None => None
          end
      end
  end.

(** [uuid.UUID(value)]: the 128-bit number, or [None] for its [ValueError]. *)
Definition uuid_UUID (value : str) : option Z :=
  let hex := replace (u "uuid:") [] (replace (u "urn:") [] value) in
  let hex := replace (u "-") [] (strip_chars (u "{}") hex) in
  if negb (Nat.eqb (length hex) 32) then None
  else match int16 hex with
       | None => None
       | Some i => if (0 <=? i) && (i <? 2 ^ 128) then Some i else None
       end.

End Identifiers.

(** [uuid.uuid4()] from the 16 bytes [os.urandom] returned, read as a number:
    the variant and version bits are forced. *)
Definition uuid4_int (r : Z) : Z :=
  let i := r mod 2 ^ 128 in
  let i := Z.land i (Z.lnot (Z.shiftl 49152 48)) in
  let i := Z.lor i (Z.shiftl 32768 48) in
  let i := Z.land i (Z.lnot (Z.shiftl 61440 64)) in
  Z.lor i (Z.shiftl 4 76).

Definition hex_digit (n : Z) : N :=
  if n <? 10 then Z.to_N (48 + n) else Z.to_N (87 + n).

(** ['%032x' % x] *)
Definition hex32 (x : Z) : str :=
  map (fun i : nat => hex_digit (Z.land (Z.shiftr x (4 * (31 - Z.of_nat i))) 15))
      (seq 0 32).

(** [str(uuid.UUID(int=x))] *)
Definition uuid_str (x : Z) : str :=
  let h := hex32 x in
  firstn 8 h ++ u "-" ++ firstn 4 (skipn 8 h) ++ u "-" ++ firstn 4 (skipn 12 h)
    ++ u "-" ++ firstn 4 (skipn 16 h) ++ u "-" ++ skipn 20 h.

(** The canonical text of a UUID: 8-4-4-4-12 lower-case hexadecimal digits. *)
Definition is_lower_hex (c : N) : bool :=
  (is_digit_ascii c || ((97 <=? c) && (c <=? 102)))%N.

Fixpoint uuid_groups (ns : list nat) (s : str) : bool :=
  match ns with
  | [] => match s with [] => true | _ => false end
  | [n] => Nat.eqb (length s) n && forallb is_lower_hex s
  | n :: ns' =>
      forallb is_lower_hex (firstn n s) && Nat.eqb (length (firstn n s)) n &&
      match skipn n s with
      | 45%N :: r => uuid_groups ns' r
      | _ => false
      end
  end.

Definition is_uuid_format (s : str) : bool := uuid_groups [8; 4; 4; 4; 12]%nat s.

(** ** The world and the monad of effects

    [datetime.now()] and [os.urandom] read oracles of the state; the
    repository and the event publisher keep their dictionaries and lists in
    it.  A computation returns a value or raises an exception, and leaves a
    state behind in both cases. *)

(** The dictionary [TaskRepositoryImpl._task_to_storage_dict] builds. *)
Record task_data : Type := {
  td_task_id : str;
  td_task_name : str;
  td_status : str;
  td_created_at : iso_string;
  td_updated_at : iso_string;
  td_version : str
}.

(** The entry [EventPublisherImpl.publish] appends to [_published_events]. *)
Record published_event : Type := {
  pe_event_id : str;
  pe_event_type : str;
  pe_aggregate_id : str;
  pe_aggregate_type : str;
  pe_occurred_at : iso_string;
  pe_version : Z;
  pe_task_id : str;
  pe_task_name : str;
  pe_user_id : str;
  pe_created_at : iso_string;
  pe_published_at : iso_string;
  pe_publisher : str;
  pe_delivery_status : str
}.

Record PublishStatus : Type := {
  ps_event_id : str;
  ps_status : str;
  ps_published_at : datetime
}.

Record State : Type := {
  (** the successive readings of [datetime.now()], and how many were taken *)
  clock : nat -> datetime;
  ticks : nat;
  (** the successive results of [os.urandom(16)], and how many were drawn *)
  entropy : nat -> Z;
  draws : nat;
  (** [TaskRepositoryImpl._storage] *)
  storage : gmap str task_data;
  (** [EventPublisherImpl._published_events] and [._publish_status] *)
  published_events : list published_event;
  publish_status : gmap str PublishStatus
}.

Inductive res (A : Type) : Type :=
| Ok (a : A)
| Raise (e : exn).

Arguments Ok {A} a.
Arguments Raise {A} e.

Definition M (A : Type) : Type := State -> res A * State.

Global Instance M_ret : MRet M := fun A a st => (Ok a, st).

Global Instance M_bind : MBind M := fun A B f m st =>
  match m st with
  | (Ok a, st') => f a st'
  | (Raise e, st') => (Raise e, st')
  end.

Definition raise {A : Type} (e : exn) : M A := fun st => (Raise e, st).

(** A pure computation that may raise, run in [M]. *)
Definition lift {A : Type} (r : res A) : M A := fun st => (r, st).

(** [try: m  except Exception as e: h e]; a handler re-raises what it does
    not catch. *)
Definition try_except {A : Type} (m : M A) (h : exn -> M A) : M A := fun st =>
  match m st with
  | (Ok a, st') => (Ok a, st')
  | (Raise e, st') => h e st'
  end.

(** The state after one more clock reading. *)
Definition tick (st : State) : State :=
  {| clock := clock st; ticks := S (ticks st); entropy := entropy st;
     draws := draws st; storage := storage st;
     published_events := published_events st;
     publish_status := publish_status st |}.

(** The state after one more draw of entropy. *)
Definition draw (st : State) : State :=
  {| clock := clock st; ticks := ticks st; entropy := entropy st;
     draws := S (draws st); storage := storage st;
     published_events := published_events st;
     publish_status := publish_status st |}.

(** [datetime.now()] *)
Definition now : M datetime := fun st => (Ok (clock st (ticks st)), tick st).

(** [uuid.uuid4()] *)
Definition uuid4 : M Z := fun st => (Ok (uuid4_int (entropy st (draws st))), draw st).

Definition get_storage : M (gmap str task_data) := fun st => (Ok (storage st), st).

Definition set_storage (m : gmap str task_data) : M unit := fun st =>
  (Ok tt,
   {| clock := clock st; ticks := ticks st; entropy := entropy st;
      draws := draws st; storage := m;
      published_events := published_events st;
      publish_status := publish_status st |}).

Definition append_published (e : published_event) : M unit := fun st =>
  (Ok tt,
   {| clock := clock st; ticks := ticks st; entropy := entropy st;
      draws := draws st; storage := storage st;
      published_events := published_events st ++ [e];
      publish_status := publish_status st |}).

Definition set_publish_status (k : str) (v : PublishStatus) : M unit := fun st =>
  (Ok tt,
   {| clock := clock st; ticks := ticks st; entropy := entropy st;
      draws := draws st; storage := storage st;
      published_events := published_events st;
      publish_status := <[k := v]> (publish_status st) |}).

(** ** Value objects ([domain/value_objects]) *)

Section ValueObjects.
Context {U : UnicodeDB}.

(** *** [task_id.py] *)

Record TaskId : Type := { tid_value : str }.

(** [TaskId.__init__] *)
Definition TaskId_init (value : str) : res TaskId :=
  if bool_decide (value = [])
  then Raise (validation_exn TaskValidationException
                (u "TaskId は null でなく、空文字でもありません") [])
  else match uuid_UUID value with
       | None =>
           Raise (validation_exn TaskValidationException
                    (u "TaskId は UUID 形式である必要があります: " ++ value) [])
       | Some _ => Ok {| tid_value := value |}
       end.

(** [TaskId.generate] *)
Definition TaskId_generate : M TaskId :=
  x ← uuid4; lift (TaskId_init (uuid_str x)).

(** [TaskId.__eq__] *)
Definition TaskId_eq (a b : TaskId) : bool := str_eqb (tid_value a) (tid_value b).

(** *** [task_name.py] *)

Record TaskName : Type := { tn_value : str }.

Definition TaskName_MAX_LENGTH : nat := 100.

(** The [dangerous_patterns] of [TaskName._sanitize_input], compiled with
    [re.IGNORECASE | re.DOTALL]:
    [<script.*?>.*?</script>], [javascript:], [on\w+\s*=],
    [<iframe.*?>.*?</iframe>]. *)
Definition TaskName_dangerous_patterns : list regex :=
  [ cat_list [word_i "<script"; Rep false any_cp; Chr (lit 62); Rep false any_cp;
              word_i "</script>"];
    word_i "javascript:";
    cat_list [word_i "on"; plus is_word; ws_star; Chr (lit 61)];
    cat_list [word_i "<iframe"; Rep false any_cp; Chr (lit 62); Rep false any_cp;
              word_i "</iframe>"] ].

(** [TaskName._sanitize_input] *)
Definition TaskName_sanitize_input (value : str) : str :=
  let sanitized := html_escape value in
  strip (fold_left (fun acc pattern => re_sub pattern [] acc)
                   TaskName_dangerous_patterns sanitized).

(** [TaskName.__init__] *)
Definition TaskName_init (value : str) : res TaskName :=
  if bool_decide (value = [])
  then Raise (validation_exn TaskBusinessRuleViolationException
                (u "タスク名は必須です") [u "タスク名を入力してください"])
  else
    let trimmed_value := strip value in
    if bool_decide (trimmed_value = [])
    then Raise (validation_exn TaskBusinessRuleViolationException
                  (u "タスク名は必須です") [u "空白のみのタスク名は無効です"])
    else if Nat.ltb TaskName_MAX_LENGTH (length trimmed_value)
    then Raise (validation_exn TaskBusinessRuleViolationException
                  (u "タスク名は" ++ str_of_nat TaskName_MAX_LENGTH
                     ++ u "文字以内で入力してください")
                  [u "現在の文字数: " ++ str_of_nat (length trimmed_value) ++ u "文字"])
    else Ok {| tn_value := TaskName_sanitize_input trimmed_value |}.

(** *** [task_status.py] *)

Inductive TaskStatusEnum : Type := PENDING | COMPLETED | ON_HOLD.

(** The [value] of each member. *)
Definition TaskStatusEnum_value (e : TaskStatusEnum) : str :=
  match e with
  | PENDING => u "未完了"
  | COMPLETED => u "完了"
  | ON_HOLD => u "保留"
  end.

(** The members, in definition order. *)
Definition TaskStatusEnum_members : list TaskStatusEnum := [PENDING; COMPLETED; ON_HOLD].

Record TaskStatus : Type := { enum_value : TaskStatusEnum }.

(** [TaskStatus.__init__] *)
Definition TaskStatus_init (value : option str) : res TaskStatus :=
  match value with
  | None => Ok {| enum_value := PENDING |}
  | Some v =>
      match find (fun status => str_eqb (TaskStatusEnum_value status) v)
                 TaskStatusEnum_members with
      | Some matching_status => Ok {| enum_value := matching_status |}
      | None =>
          Raise (validation_exn TaskValidationException
                   (u "無効なタスクステータスです: " ++ v ++ u ". 有効な値: "
                      ++ u "未完了, 完了, 保留") [])
      end
  end.

(** [TaskStatus.pending] *)
Definition TaskStatus_pending : res TaskStatus :=
  TaskStatus_init (Some (TaskStatusEnum_value PENDING)).

(** [TaskStatus.__str__] *)
Definition TaskStatus_str (s : TaskStatus) : str := TaskStatusEnum_value (enum_value s).

(** *** [datetime_value.py] *)

(** [DateTimeValue] and its subclasses [CreatedAt] and [UpdatedAt], which add
    nothing to its constructor. *)
Record DateTimeValue : Type := { dtv_value : datetime }.

(** [DateTimeValue.__init__] *)
Definition DateTimeValue_init (value : option datetime) : M DateTimeValue :=
  match value with
  | None => t ← now; mret {| dtv_value := t |}
  | Some v =>
      n ← now;
      match replace_microsecond n (microsecond n + 100000) with
      | inl e => raise e
      | inr bound =>
          if v >? bound
          then raise (validation_exn TaskValidationException
                        (u "日時値は過去または現在の日時である必要があります") [])
          else mret {| dtv_value := v |}
      end
  end.

Definition CreatedAt_init : option datetime -> M DateTimeValue := DateTimeValue_init.
Definition UpdatedAt_init : option datetime -> M DateTimeValue := DateTimeValue_init.

(** [DateTimeValue.__gt__] *)
Definition DateTimeValue_gt (a b : DateTimeValue) : bool := dtv_value a >? dtv_value b.

(** [DateTimeValue.to_iso_string] *)
Definition to_iso_string (d : DateTimeValue) : iso_string := isoformat (dtv_value d).

(** *** [validation_result.py] *)

Inductive ValidationSeverity : Type := VS_LOW | VS_MEDIUM | VS_HIGH | VS_CRITICAL.

Record ValidationViolation : Type := {
  rule_id : str;
  vv_message : str;
  severity : ValidationSeverity;
  field_name : str
}.

Record ValidationResult : Type := {
  is_valid : bool;
  violations : list ValidationViolation;
  validated_at : datetime
}.

(** [ValidationResult.__init__] *)
Definition ValidationResult_init (is_valid : bool) (violations : list ValidationViolation)
  : M ValidationResult :=
  t ← now;
  if negb is_valid && bool_decide (violations = [])
  then raise (builtin_exn ValueError (u "バリデーション失敗時は違反情報が必要です"))
  else mret {| is_valid := is_valid; violations := violations; validated_at := t |}.

(** [ValidationResult.get_error_messages] *)
Definition get_error_messages (r : ValidationResult) : list str :=
  map vv_message (violations r).

(** *** [security_result.py] *)

Inductive SecurityRiskLevel : Type := NONE | LOW | MEDIUM | HIGH | CRITICAL.

Inductive SecurityAction : Type := ALLOW | SANITIZE | REJECT | AUDIT.

Record SecurityThreat : Type := {
  threat_type : str;
  description : str;
  risk_level : SecurityRiskLevel
}.

Record Modification : Type := {
  original : str;
  modified : str;
  reason : str
}.

Record SanitizedInput : Type := {
  clean_input : str;
  modifications : list Modification;
  si_risk_level : SecurityRiskLevel;
  sanitized_at : datetime
}.

(** [SanitizedInput.__init__] *)
Definition SanitizedInput_init (clean : str) (mods : list Modification)
    (level : SecurityRiskLevel) : M SanitizedInput :=
  t ← now;
  mret {| clean_input := clean; modifications := mods; si_risk_level := level;
          sanitized_at := t |}.

Record SecurityCheckResult : Type := {
  is_passed : bool;
  detected_threats : list SecurityThreat;
  recommended_action : SecurityAction;
  checked_at : datetime
}.

(** [SecurityCheckResult.__init__] *)
Definition SecurityCheckResult_init (passed : bool) (threats : list SecurityThreat)
    (action : SecurityAction) : M SecurityCheckResult :=
  t ← now;
  mret {| is_passed := passed; detected_threats := threats;
          recommended_action := action; checked_at := t |}.

Global Instance SecurityRiskLevel_eq_dec : EqDecision SecurityRiskLevel.
Proof. solve_decision. Defined.

(** [SecurityCheckResult.get_critical_threats] *)
Definition get_critical_threats (r : SecurityCheckResult) : list SecurityThreat :=
  List.filter (fun threat => bool_decide (risk_level threat = CRITICAL))
              (detected_threats r).

End ValueObjects.

(** ** Domain services ([domain/services]) *)

Section Services.
Context {U : UnicodeDB}.

(** *** [task_validation_domain_service.py] *)

Record TaskCreationContext : Type := {
  ctx_user_id : str;
  ctx_timestamp : option iso_string;
  ctx_client_info : str;
  ctx_request_id : option str
}.

Definition RESERVED_WORDS : list str :=
  map u ["admin"; "system"; "root"; "null"; "undefined";
         "script"; "alert"; "eval"; "function"]%string.

(** [(?i)(password|secret|token|key)\s*[:=]],
    [(?i)(credit\s*card|social\s*security)], [(?i)(hack|crack|exploit)] *)
Definition INAPPROPRIATE_PATTERNS : list regex :=
  [ cat_list [Alt (word_i "password") (Alt (word_i "secret")
                (Alt (word_i "token") (word_i "key")));
              ws_star; Chr (one_of (u ":="))];
    Alt (cat_list [word_i "credit"; ws_star; word_i "card"])
        (cat_list [word_i "social"; ws_star; word_i "security"]);
    Alt (word_i "hack") (Alt (word_i "crack") (word_i "exploit")) ].

(** The violations are built with constant, non-empty rule ids, messages and
    field names, so the check of [ValidationViolation.__init__] passes. *)
Definition violation (rule message : str) (sev : ValidationSeverity) (field : string)
  : ValidationViolation :=
  {| rule_id := rule; vv_message := message; severity := sev; field_name := u field |}.

(** [_validate_basic_rules] *)
Definition _validate_basic_rules (task_name : str) : list ValidationViolation :=
  if bool_decide (task_name = [])
  then [violation (u "BR-001") (u "タスク名は必須です") VS_CRITICAL "task_name"]
  else
    (if bool_decide (strip task_name = [])
     then [violation (u "BR-001") (u "タスク名は必須です（空白のみは無効）")
             VS_CRITICAL "task_name"]
     else [])
    ++
    (if Nat.ltb 100 (length (strip task_name))
     then [violation (u "BR-004")
             (u "タスク名は100文字以内で入力してください（現在: "
                ++ str_of_nat (length (strip task_name)) ++ u "文字）")
             VS_HIGH "task_name"]
     else []).

(** [<script[^>]*>], [javascript:], [on\w+\s*=], [<iframe[^>]*>],
    [eval\s*\(], [alert\s*\(], searched with [re.IGNORECASE] *)
Definition validation_xss_patterns : list regex :=
  [ cat_list [word_i "<script"; Rep true (none_of (u ">")); Chr (lit 62)];
    word_i "javascript:";
    cat_list [word_i "on"; plus is_word; ws_star; Chr (lit 61)];
    cat_list [word_i "<iframe"; Rep true (none_of (u ">")); Chr (lit 62)];
    cat_list [word_i "eval"; ws_star; Chr (lit 40)];
    cat_list [word_i "alert"; ws_star; Chr (lit 40)] ].

(** [union\s+select], [drop\s+table], [insert\s+into], [delete\s+from],
    [update\s+set], [--\s*$], [';], searched with [re.IGNORECASE] *)
Definition validation_sql_patterns : list regex :=
  [ cat_list [word_i "union"; ws_plus; word_i "select"];
    cat_list [word_i "drop"; ws_plus; word_i "table"];
    cat_list [word_i "insert"; ws_plus; word_i "into"];
    cat_list [word_i "delete"; ws_plus; word_i "from"];
    cat_list [word_i "update"; ws_plus; word_i "set"];
    cat_list [word_i "--"; ws_star; Eos];
    word_i "';" ].

Definition br005 : ValidationViolation :=
  violation (u "BR-005") (u "タスク名に許可されていない文字が含まれています")
            VS_CRITICAL "task_name".

(** [_validate_security_rules]: each loop appends one violation at the
    first pattern found and stops. *)
Definition _validate_security_rules (task_name : str) : list ValidationViolation :=
  (if existsb (fun pattern => search pattern task_name) validation_xss_patterns
   then [br005] else [])
  ++
  (if existsb (fun pattern => search pattern task_name) validation_sql_patterns
   then [br005] else []).

(** [_validate_business_rules] *)
Definition _validate_business_rules (task_name : str) : list ValidationViolation :=
  let task_name_lower := strip (lower task_name) in
  flat_map (fun reserved_word =>
              if contains reserved_word task_name_lower
              then [violation (u "BR-RESERVED")
                      (u "タスク名に予約語「" ++ reserved_word ++ u "」は使用できません")
                      VS_MEDIUM "task_name"]
              else [])
           RESERVED_WORDS
  ++
  (if existsb (fun pattern => search pattern task_name) INAPPROPRIATE_PATTERNS
   then [violation (u "BR-CONTENT")
           (u "タスク名に不適切な内容が含まれている可能性があります")
           VS_HIGH "task_name"]
   else []).

(** [_validate_context_rules]; the rate-limit branch does nothing. *)
Definition _validate_context_rules (context : TaskCreationContext)
  : list ValidationViolation :=
  if bool_decide (ctx_user_id context = [])
  then [violation (u "BR-CONTEXT-USER") (u "ユーザーIDが必要です") VS_HIGH "user_id"]
  else [].

(** The list [validate_task_creation] accumulates. *)
Definition all_violations (task_name : str) (context : TaskCreationContext)
  : list ValidationViolation :=
  _validate_basic_rules task_name ++ _validate_security_rules task_name
    ++ _validate_business_rules task_name ++ _validate_context_rules context.

(** [TaskValidationDomainService.validate_task_creation] *)
Definition validate_task_creation (task_name : str) (context : TaskCreationContext)
  : M ValidationResult :=
  let violations := all_violations task_name context in
  let is_valid := Nat.eqb (length violations) 0 in
  ValidationResult_init is_valid violations.

End Services.

Section SecurityService.
Context {U : UnicodeDB}.

(** *** [task_security_domain_service.py] *)

Inductive SanitizationPolicy : Type := STRICT | MODERATE | LENIENT.

Global Instance SanitizationPolicy_eq_dec : EqDecision SanitizationPolicy.
Proof. solve_decision. Defined.

Definition modification (o m r : str) : Modification :=
  {| original := o; modified := m; reason := r |}.

(** [_sanitize_html] *)
Definition _sanitize_html (input_text : str) : str * list Modification :=
  let sanitized := html_escape input_text in
  (sanitized,
   if bool_decide (sanitized = input_text) then []
   else [modification input_text sanitized (u "HTMLエスケープ処理")]).

Definition quotes : str := [34%N; 39%N].

(** The [dangerous_patterns] of [_sanitize_scripts], each with its source
    text and its replacement; they are compiled with
    [re.IGNORECASE | re.DOTALL]. *)
Definition dangerous_patterns : list (regex * str * str) :=
  [ (cat_list [word_i "<script"; Rep true (none_of (u ">")); Chr (lit 62);
               Rep false any_cp; word_i "</script>"],
     u "<script[^>]*>.*?</script>", []);
    (word_i "javascript:", u "javascript:", u "text:");
    (cat_list [word_i "on"; plus is_word; ws_star; Chr (lit 61); ws_star;
               Chr (one_of quotes); Rep true (none_of quotes); Chr (one_of quotes)],
     u "on\w+\s*=\s*[" ++ [34%N] ++ u "\'][^" ++ [34%N] ++ u "\']*[" ++ [34%N] ++ u "\']",
     []);
    (cat_list [word_i "<iframe"; Rep true (none_of (u ">")); Chr (lit 62);
               Rep false any_cp; word_i "</iframe>"],
     u "<iframe[^>]*>.*?</iframe>", []) ].

(** One turn of the loop of [_sanitize_scripts]. *)
Definition sanitize_scripts_step (acc : str * list Modification)
    (p : regex * str * str) : str * list Modification :=
  let '(sanitized, modifications) := acc in
  let '(pattern, source, replacement) := p in
  let new_sanitized := re_sub pattern replacement sanitized in
  if bool_decide (new_sanitized = sanitized) then acc
  else (new_sanitized,
        modifications ++
          [modification sanitized new_sanitized
             (u "危険なスクリプトパターンの除去: " ++ source)]).

(** [_sanitize_scripts] *)
Definition _sanitize_scripts (input_text : str) : str * list Modification :=
  fold_left sanitize_scripts_step dangerous_patterns (input_text, []).

(** The class the strict policy keeps: [a-zA-Z0-9], hiragana, katakana, the
    CJK block up to U+9FAF, [\s], and the marks [.-_,!?()] with the
    full-width parentheses. *)
Definition strict_allowed (c : N) : bool :=
  (is_alnum_ascii c
   || ((12352 <=? c) && (c <=? 12447))
   || ((12448 <=? c) && (c <=? 12543))
   || ((19968 <=? c) && (c <=? 40879))
   || is_space c
   || mem_cp c (u ".-_,!?()（）"))%N.

(** [_sanitize_special_chars] *)
Definition _sanitize_special_chars (input_text : str) (policy : SanitizationPolicy)
  : str * list Modification :=
  if bool_decide (policy = STRICT)
  then
    let cleaned := re_sub (Chr (fun c => negb (strict_allowed c))) [] input_text in
    if bool_decide (cleaned = input_text) then (input_text, [])
    else (cleaned, [modification input_text cleaned (u "厳格な文字制限適用")])
  else (input_text, []).

(** [_apply_whitelist_filter] *)
Definition _apply_whitelist_filter (input_text : str) (policy : SanitizationPolicy)
  : str * list Modification := (input_text, []).

Definition MAX_LENGTH : nat := 100.

(** [_apply_length_limit] *)
Definition _apply_length_limit (input_text : str) : str * list Modification :=
  if Nat.ltb MAX_LENGTH (length input_text)
  then
    let truncated := firstn MAX_LENGTH input_text in
    (truncated,
     [modification input_text truncated
        (u "長さ制限適用（" ++ str_of_nat MAX_LENGTH ++ u "文字まで）")])
  else (input_text, []).

Definition risk_keywords : list str := map u ["スクリプト"; "HTML"; "危険な"]%string.

(** [_calculate_risk_level] *)
Definition _calculate_risk_level (modifications : list Modification) : SecurityRiskLevel :=
  match modifications with
  | [] => NONE
  | _ =>
      let high_risk_count :=
        length (List.filter
                  (fun m => existsb (fun keyword => contains keyword (reason m))
                                    risk_keywords)
                  modifications) in
      if Nat.ltb 2 high_risk_count then HIGH
      else if Nat.ltb 0 high_risk_count then MEDIUM
      else if Nat.ltb 3 (length modifications) then MEDIUM
      else LOW
  end.

(** The text and the modifications of [sanitize_task_input], before the
    result object is built. *)
Definition sanitize_text (raw_input : str) (policy : SanitizationPolicy)
  : str * list Modification :=
  let '(c1, m1) := _sanitize_html raw_input in
  let '(c2, m2) := _sanitize_scripts c1 in
  let '(c3, m3) := _sanitize_special_chars c2 policy in
  let '(c4, m4) := _apply_whitelist_filter c3 policy in
  let '(c5, m5) := _apply_length_limit c4 in
  (c5, m1 ++ m2 ++ m3 ++ m4 ++ m5).

(** [TaskSecurityDomainService.sanitize_task_input]; [self_policy] is the
    policy of the service, taken when the caller names none. *)
Definition sanitize_task_input (self_policy : SanitizationPolicy) (raw_input : str)
    (sanitization_policy : option SanitizationPolicy) : M SanitizedInput :=
  let policy := default self_policy sanitization_policy in
  let '(clean, modifications) := sanitize_text raw_input policy in
  let risk_level :=
    match modifications with
    | [] => NONE
    | _ => _calculate_risk_level modifications
    end in
  SanitizedInput_init clean modifications risk_level.

Definition threat (ty : string) (desc : str) (level : SecurityRiskLevel) : SecurityThreat :=
  {| threat_type := u ty; description := desc; risk_level := level |}.

(** [<script[^>]*>], [javascript:], [alert\s*\(], [eval\s*\(] *)
Definition security_xss_patterns : list regex :=
  [ cat_list [word_i "<script"; Rep true (none_of (u ">")); Chr (lit 62)];
    word_i "javascript:";
    cat_list [word_i "alert"; ws_star; Chr (lit 40)];
    cat_list [word_i "eval"; ws_star; Chr (lit 40)] ].

(** [union\s+select], [drop\s+table], [';] *)
Definition security_sql_patterns : list regex :=
  [ cat_list [word_i "union"; ws_plus; word_i "select"];
    cat_list [word_i "drop"; ws_plus; word_i "table"];
    word_i "';" ].

(** [_detect_malicious_payloads] *)
Definition _detect_malicious_payloads (input_text : str) : list SecurityThreat :=
  (if existsb (fun pattern => search pattern input_text) security_xss_patterns
   then [threat "XSS" (u "XSS攻撃パターンが検出されました") HIGH] else [])
  ++
  (if existsb (fun pattern => search pattern input_text) security_sql_patterns
   then [threat "SQL_INJECTION"
           (u "SQLインジェクション攻撃パターンが検出されました") CRITICAL]
   else []).

(** [_detect_abnormal_patterns] *)
Definition _detect_abnormal_patterns (input_text : str) : list SecurityThreat :=
  (if Nat.ltb 1000 (length input_text)
   then [threat "ABNORMAL_LENGTH" (u "異常に長い入力が検出されました") MEDIUM] else [])
  ++
  (if existsb (fun c => (c <? 32)%N && negb (mem_cp c [9%N; 10%N; 13%N])) input_text
   then [threat "CONTROL_CHARS" (u "制御文字が検出されました") LOW] else []).

(** The float of a length (exact below 2^53). *)
Definition float_of_nat (n : nat) : float :=
  PrimFloat.of_uint63 (Uint63.of_Z (Z.of_nat n)).

(** The double nearest to one tenth, the value of the literal [0.1]. *)
Definition tenth : float := 0x1.999999999999ap-4%float.

(** [_detect_data_attacks]: [len(set(s)) < len(s) * 0.1 and len(s) > 50],
    the product taken in double precision. *)
Definition _detect_data_attacks (input_text : str) : list SecurityThreat :=
  if PrimFloat.ltb (float_of_nat (length (distinct input_text)))
                   (PrimFloat.mul (float_of_nat (length input_text)) tenth)
     && Nat.ltb 50 (length input_text)
  then [threat "REPETITIVE_DATA" (u "繰り返しデータパターンが検出されました") LOW]
  else [].

Definition admin_keywords : list str := map u ["admin"; "root"; "system"; "config"]%string.

(** [_check_permission_constraints] *)
Definition _check_permission_constraints (input_text : str) (context : TaskCreationContext)
  : list SecurityThreat :=
  if negb (str_eqb (ctx_user_id context) (u "admin"))
     && negb (str_eqb (ctx_user_id context) (u "system"))
  then
    let input_lower := lower input_text in
    match find (fun keyword => contains keyword input_lower) admin_keywords with
    | Some keyword =>
        [threat "PRIVILEGE_ESCALATION"
           (u "システム管理者用キーワード「" ++ keyword ++ u "」の使用が制限されています")
           MEDIUM]
    | None => []
    end
  else [].

(** [max] over the members of a plain [Enum], which define no ordering: a
    single element is returned without a comparison, the first comparison of
    two members raises [TypeError]. *)
Definition max_risk_level (levels : list SecurityRiskLevel) : res SecurityRiskLevel :=
  match levels with
  | [] => Raise (builtin_exn ValueError (u "max() iterable argument is empty"))
  | [x] => Ok x
  | _ :: _ :: _ =>
      Raise (builtin_exn TypeError
               (u "'>' not supported between instances of 'SecurityRiskLevel' and 'SecurityRiskLevel'"))
  end.

(** [_determine_recommended_action] *)
Definition _determine_recommended_action (threats : list SecurityThreat)
  : res SecurityAction :=
  match threats with
  | [] => Ok ALLOW
  | _ =>
      match max_risk_level (map risk_level threats) with
      | Raise e => Raise e
      | Ok max_risk =>
          if bool_decide (max_risk = CRITICAL) then Ok REJECT
          else if bool_decide (max_risk = HIGH) then Ok SANITIZE
          else if bool_decide (max_risk = MEDIUM) then Ok AUDIT
          else Ok ALLOW
      end
  end.

(** The list [check_security_constraints] accumulates. *)
Definition detect_threats (input_text : str) (context : TaskCreationContext)
  : list SecurityThreat :=
  _detect_malicious_payloads input_text ++ _detect_abnormal_patterns input_text
    ++ _detect_data_attacks input_text ++ _check_permission_constraints input_text context.

(** [TaskSecurityDomainService.check_security_constraints] *)
Definition check_security_constraints (input_text : str) (context : TaskCreationContext)
  : M SecurityCheckResult :=
  let detected := detect_threats input_text context in
  let passed := Nat.eqb (length detected) 0 in
  action ← lift (_determine_recommended_action detected);
  SecurityCheckResult_init passed detected action.

End SecurityService.

(** ** The entity, its event and its factory *)

Section Entities.
Context {U : UnicodeDB}.

(** *** [domain/events] *)

Record TaskCreatedEvent : Type := {
  ev_event_id : str;
  ev_aggregate_id : str;
  ev_aggregate_type : str;
  ev_occurred_at : datetime;
  ev_version : Z;
  ev_task_id : str;
  ev_task_name : str;
  ev_user_id : str;
  ev_created_at : datetime
}.

(** [TaskCreatedEvent.__init__], with [DomainEvent.__init__] *)
Definition TaskCreatedEvent_init (task_id task_name user_id : str) (created_at : datetime)
  : M TaskCreatedEvent :=
  x ← uuid4;
  t ← now;
  mret {| ev_event_id := uuid_str x; ev_aggregate_id := task_id;
          ev_aggregate_type := u "Task"; ev_occurred_at := t; ev_version := 1;
          ev_task_id := task_id; ev_task_name := task_name; ev_user_id := user_id;
          ev_created_at := created_at |}.

(** *** [domain/entities/task.py] *)

Record Task : Type := {
  task_id : TaskId;
  task_name : TaskName;
  status : TaskStatus;
  created_at : DateTimeValue;
  updated_at : DateTimeValue
}.

(** [Task._validate_invariants].  The tests [not task_id], [not task_name],
    [not status] and [not all([...])] are tests of objects whose classes
    define neither [__bool__] nor [__len__]: they never hold.  What is left
    is INV-004. *)
Definition _validate_invariants (created updated : DateTimeValue) : res unit :=
  if DateTimeValue_gt created updated
  then Raise (validation_exn TaskValidationException
                (u "INV-004: createdAt は updatedAt より前または同じ日時である必要があります") [])
  else Ok tt.

(** [Task.__init__] *)
Definition Task_init (tid : TaskId) (name : TaskName) (st : option TaskStatus)
    (created updated : option DateTimeValue) : M Task :=
  st' ← match st with
        | Some s => mret s
        | None => lift TaskStatus_pending
        end;
  created' ← match created with
             | Some c => mret c
             | None => CreatedAt_init None
             end;
  updated' ← match updated with
             | Some c => mret c
             | None => UpdatedAt_init None
             end;
  _ ← lift (_validate_invariants created' updated');
  mret {| task_id := tid; task_name := name; status := st';
          created_at := created'; updated_at := updated' |}.

(** [Task.create] *)
Definition Task_create (name : TaskName) (user_id : str) : M Task :=
  tid ← TaskId_generate;
  st ← lift TaskStatus_pending;
  now_created ← CreatedAt_init None;
  now_updated ← UpdatedAt_init None;
  Task_init tid name (Some st) (Some now_created) (Some now_updated).

(** [Task.create_domain_event] *)
Definition create_domain_event (t : Task) (user_id : str) : M TaskCreatedEvent :=
  TaskCreatedEvent_init (tid_value (task_id t)) (tn_value (task_name t)) user_id
                        (dtv_value (created_at t)).

(** [Task.__eq__] *)
Definition Task_eq (a b : Task) : bool := TaskId_eq (task_id a) (task_id b).

(** *** [domain/factories/task_factory.py] *)

Record TaskCreationResult : Type := {
  tcr_task : Task;
  tcr_event : TaskCreatedEvent;
  tcr_success : bool;
  tcr_created_at : datetime
}.

Definition factory_exn (prefix : string) (e : exn) : exn :=
  creation_exn TaskFactoryException (u prefix ++ exn_message e).

(** [TaskFactory.create_task] *)
Definition TaskFactory_create_task (name user_id : str) : M Task :=
  try_except
    (validated_task_name ← lift (TaskName_init name);
     Task_create validated_task_name user_id)
    (fun e => raise (factory_exn "タスク作成に失敗しました: " e)).

(** [TaskFactory.create_task_with_event] *)
Definition create_task_with_event (name user_id : str) : M TaskCreationResult :=
  try_except
    (t ← TaskFactory_create_task name user_id;
     event ← create_domain_event t user_id;
     mret {| tcr_task := t; tcr_event := event; tcr_success := true;
             tcr_created_at := dtv_value (created_at t) |})
    (fun e => raise (factory_exn "イベント付きタスク作成に失敗しました: " e)).

(** [TaskFactory.restore_task] *)
Definition restore_task (tid name st : str) (created_at_iso updated_at_iso : iso_string)
  : M Task :=
  try_except
    (restored_task_id ← lift (TaskId_init tid);
     restored_task_name ← lift (TaskName_init name);
     restored_status ← lift (TaskStatus_init (Some st));
     restored_created_at ← CreatedAt_init (Some (fromisoformat created_at_iso));
     restored_updated_at ← UpdatedAt_init (Some (fromisoformat updated_at_iso));
     Task_init restored_task_id restored_task_name (Some restored_status)
               (Some restored_created_at) (Some restored_updated_at))
    (fun e => raise (factory_exn "タスク復元に失敗しました: " e)).

(** [TaskFactory.validate_task_creation_prerequisites]; on strings nothing
    in its body raises. *)
Definition validate_task_creation_prerequisites (name user_id : str) : bool :=
  if bool_decide (name = []) || bool_decide (user_id = []) then false
  else if Nat.eqb (length (strip name)) 0 || Nat.ltb 100 (length (strip name)) then false
  else if Nat.eqb (length (strip user_id)) 0 then false
  else true.

(** *** [task_creation_domain_service.py] *)

(** [_validate_input_parameters] *)
Definition _validate_input_parameters (name : str) (context : TaskCreationContext)
  : res unit :=
  if negb (validate_task_creation_prerequisites name (ctx_user_id context))
  then Raise (creation_exn TaskCreationException
                (u "タスク作成の事前条件を満たしていません"))
  else Ok tt.

(** The [except] clauses of [create_new_task]: validation and security
    exceptions pass, every other exception is wrapped. *)
Definition create_new_task_handler (e : exn) : M TaskCreationResult :=
  if isinstance e TaskValidationException then raise e
  else if isinstance e TaskSecurityException then raise e
  else raise (creation_exn TaskCreationException
                (u "タスク作成処理に失敗しました: " ++ exn_message e)).

(** [TaskCreationDomainService.create_new_task]; its security service is
    built with the default policy. *)
Definition create_new_task (name : str) (creation_context : TaskCreationContext)
  : M TaskCreationResult :=
  try_except
    (_ ← lift (_validate_input_parameters name creation_context);
     validation_result ← validate_task_creation name creation_context;
     _ ← (if negb (is_valid validation_result)
          then raise (validation_exn TaskValidationException
                        (u "バリデーションに失敗しました")
                        (get_error_messages validation_result))
          else mret tt);
     sanitized_input ← sanitize_task_input STRICT name (Some STRICT);
     security_result ← check_security_constraints (clean_input sanitized_input)
                                                  creation_context;
     _ ← (if negb (is_passed security_result)
          then match get_critical_threats security_result with
               | _ :: _ =>
                   raise (security_exn TaskSecurityException
                            (u "セキュリティ制約に違反しています")
                            (Some (u "CRITICAL_THREAT_DETECTED")))
               | [] => mret tt
               end
          else mret tt);
     create_task_with_event (clean_input sanitized_input) (ctx_user_id creation_context))
    create_new_task_handler.

End Entities.

(** ** Application layer and infrastructure *)

Section Application.
Context {U : UnicodeDB}.

(** *** [application/commands/create_task_command.py] *)

Record ClientInfo : Type := {
  user_agent : str;
  ip_address : str;
  platform : str
}.

Definition ClientInfo_default : ClientInfo :=
  {| user_agent := u "unknown"; ip_address := u "127.0.0.1"; platform := u "web" |}.

Record CreateTaskCommand : Type := {
  cmd_task_name : str;
  cmd_user_id : str;
  cmd_request_id : str;
  cmd_timestamp : datetime;
  cmd_client_info : ClientInfo
}.

(** [CreateTaskCommand._validate_structure]; the [isinstance] tests hold by
    typing. *)
Definition _validate_structure (name user_id : str) (request_id : option str)
    (timestamp : option datetime) : M unit :=
  _ ← (if bool_decide (name = [])
       then raise (validation_exn TaskValidationException (u "タスク名は必須です") [])
       else mret tt);
  _ ← (if bool_decide (user_id = [])
       then raise (validation_exn TaskValidationException (u "ユーザーIDは必須です") [])
       else mret tt);
  _ ← match timestamp with
      | None => mret tt
      | Some ts =>
          n ← now;
          match replace_microsecond n (microsecond n + 100000) with
          | inl e => raise e
          | inr bound =>
              if ts >? bound
              then raise (validation_exn TaskValidationException
                            (u "タイムスタンプは現在時刻以前である必要があります") [])
              else mret tt
          end
      end;
  match request_id with
  | None => mret tt
  | Some rid =>
      match uuid_UUID rid with
      | Some _ => mret tt
      | None =>
          raise (validation_exn TaskValidationException
                   (u "リクエストIDはUUID形式である必要があります") [])
      end
  end.


(** [CreateTaskCommand.to_creation_context] *)
Definition to_creation_context (c : CreateTaskCommand) : TaskCreationContext :=
  {| ctx_user_id := cmd_user_id c;
     ctx_timestamp := Some (isoformat (cmd_timestamp c));
     ctx_client_info := platform (cmd_client_info c) ++ u "_" ++ user_agent (cmd_client_info c);
     ctx_request_id := Some (cmd_request_id c) |}.

(** *** [infrastructure/repositories/task_repository_impl.py] *)

(** [_task_to_storage_dict] *)
Definition _task_to_storage_dict (t : Task) : task_data :=
  {| td_task_id := tid_value (task_id t);
     td_task_name := tn_value (task_name t);
     td_status := TaskStatus_str (status t);
     td_created_at := to_iso_string (created_at t);
     td_updated_at := to_iso_string (updated_at t);
     td_version := u "1.0" |}.

(** [_storage_dict_to_task] *)
Definition _storage_dict_to_task (d : task_data) : M Task :=
  restore_task (td_task_id d) (td_task_name d) (td_status d)
               (td_created_at d) (td_updated_at d).

(** [TaskRepositoryImpl.save] *)
Definition save (t : Task) : M Task :=
  try_except
    (let data := _task_to_storage_dict t in
     let task_id_str := tid_value (task_id t) in
     m ← get_storage;
     _ ← set_storage (<[task_id_str := data]> m);
     mret t)
    (fun e => raise (creation_exn TaskCreationException
                       (u "タスクの保存に失敗しました: " ++ exn_message e))).

(** [TaskRepositoryImpl.find_by_id] *)
Definition find_by_id (tid : TaskId) : M (option Task) :=
  try_except
    (let task_id_str := tid_value tid in
     m ← get_storage;
     match m !! task_id_str with
     | None => mret None
     | Some data => t ← _storage_dict_to_task data; mret (Some t)
     end)
    (fun _ => mret None).

(** *** [infrastructure/events/event_publisher_impl.py] *)

(** [EventPublisherImpl.publish]; the calls of the logger and
    [_send_to_unit2], which only logs, leave no trace in the state. *)
Definition publish (event : TaskCreatedEvent) : M unit :=
  try_except
    (_ ← (if bool_decide (ev_event_id event = [])
          then raise (builtin_exn ValueError (u "イベントIDが不正です"))
          else mret tt);
     t1 ← now;
     _ ← append_published
           {| pe_event_id := ev_event_id event; pe_event_type := u "TaskCreated";
              pe_aggregate_id := ev_aggregate_id event;
              pe_aggregate_type := ev_aggregate_type event;
              pe_occurred_at := isoformat (ev_occurred_at event);
              pe_version := ev_version event;
              pe_task_id := ev_task_id event; pe_task_name := ev_task_name event;
              pe_user_id := ev_user_id event;
              pe_created_at := isoformat (ev_created_at event);
              pe_published_at := isoformat t1;
              pe_publisher := u "EventPublisherImpl";
              pe_delivery_status := u "DELIVERED" |};
     t2 ← now;
     set_publish_status (ev_event_id event)
       {| ps_event_id := ev_event_id event; ps_status := u "PUBLISHED";
          ps_published_at := t2 |})
    (fun e =>
       t ← now;
       _ ← set_publish_status (ev_event_id event)
             {| ps_event_id := ev_event_id event; ps_status := u "FAILED";
                ps_published_at := t |};
       raise e).

(** *** [application/responses] *)

Record CreateTaskResponse : Type := {
  resp_task_id : str;
  resp_task_name : str;
  resp_status : str;
  resp_created_at : datetime;
  resp_message : str;
  resp_request_id : option str
}.

(** [CreateTaskResponse.__init__]; a [datetime] is always true. *)
Definition CreateTaskResponse_init (tid name st : str) (created : datetime)
    (message : str) (request_id : option str) : res CreateTaskResponse :=
  if bool_decide (tid = []) || bool_decide (name = []) || bool_decide (st = [])
     || bool_decide (message = [])
  then Raise (builtin_exn ValueError (u "すべての属性が必須です"))
  else match uuid_UUID tid with
       | None => Raise (builtin_exn ValueError (u "task_idはUUID形式である必要があります"))
       | Some _ =>
           Ok {| resp_task_id := tid; resp_task_name := name; resp_status := st;
                 resp_created_at := created; resp_message := message;
                 resp_request_id := request_id |}
       end.

(** [CreateTaskResponse.from_task_creation_result] *)
Definition from_task_creation_result (result : TaskCreationResult)
    (request_id : option str) : res CreateTaskResponse :=
  let t := tcr_task result in
  CreateTaskResponse_init (tid_value (task_id t)) (tn_value (task_name t))
    (TaskStatus_str (status t)) (dtv_value (created_at t))
    (u "タスクが正常に追加されました") request_id.

Record ErrorDetail : Type := {
  ed_field : str;
  ed_code : str;
  ed_message : str;
  ed_value : option str
}.

Inductive error_code : Type :=
| VALIDATION_ERROR
| SECURITY_ERROR
| BUSINESS_RULE_VIOLATION
| INFRASTRUCTURE_ERROR
| UNKNOWN_ERROR.

Record CreateTaskErrorResponse : Type := {
  err_error_code : error_code;
  err_error_message : str;
  err_details : list ErrorDetail;
  err_timestamp : datetime;
  err_request_id : option str
}.

(** [CreateTaskErrorResponse.__init__]; the code is one of the five by
    typing. *)
Definition CreateTaskErrorResponse_init (code : error_code) (message : str)
    (details : list ErrorDetail) (request_id : option str) : M CreateTaskErrorResponse :=
  if bool_decide (message = [])
  then raise (builtin_exn ValueError (u "エラーメッセージは必須です"))
  else
    t ← now;
    mret {| err_error_code := code; err_error_message := message;
            err_details := details; err_timestamp := t; err_request_id := request_id |}.

Definition detail (code : string) (message : str) : ErrorDetail :=
  {| ed_field := u "task_name"; ed_code := u code; ed_message := message;
     ed_value := None |}.

(** [CreateTaskErrorResponse.from_validation_exception] *)
Definition from_validation_exception (e : exn) (request_id : option str)
  : M CreateTaskErrorResponse :=
  CreateTaskErrorResponse_init VALIDATION_ERROR (exn_message e)
    (map (detail "VALIDATION_FAILED") (exn_violations e)) request_id.

(** [CreateTaskErrorResponse.from_security_exception] *)
Definition from_security_exception (e : exn) (request_id : option str)
  : M CreateTaskErrorResponse :=
  CreateTaskErrorResponse_init SECURITY_ERROR
    (u "入力データにセキュリティ上の問題があります")
    [detail "SECURITY_THREAT" (u "セキュリティ制約に違反する内容が検出されました")]
    request_id.

(** [CreateTaskErrorResponse.from_business_rule_violation] *)
Definition from_business_rule_violation (e : exn) (request_id : option str)
  : M CreateTaskErrorResponse :=
  CreateTaskErrorResponse_init BUSINESS_RULE_VIOLATION (exn_message e)
    (map (detail "BUSINESS_RULE_VIOLATION") (exn_violations e)) request_id.

(** [CreateTaskErrorResponse.from_infrastructure_error] *)
Definition from_infrastructure_error (message : str) (request_id : option str)
  : M CreateTaskErrorResponse :=
  CreateTaskErrorResponse_init INFRASTRUCTURE_ERROR message [] request_id.

(** [CreateTaskErrorResponse.from_unknown_error] *)
Definition from_unknown_error (request_id : option str) : M CreateTaskErrorResponse :=
  CreateTaskErrorResponse_init UNKNOWN_ERROR (u "予期しないエラーが発生しました") [] request_id.

(** *** [application/services/task_creation_application_service.py] *)

Inductive create_task_result : Type :=
| Created (r : CreateTaskResponse)
| Failed (e : CreateTaskErrorResponse).

(** [TaskCreationApplicationService.create_task]; the [except] clauses are
    tried in the order of the source.  The logger calls leave no trace in
    the state. *)
Definition create_task (command : CreateTaskCommand) : M create_task_result :=
  let request_id := Some (cmd_request_id command) in
  try_except
    (let creation_context := to_creation_context command in
     task_creation_result ← create_new_task (cmd_task_name command) creation_context;
     saved_task ← save (tcr_task task_creation_result);
     _ ← publish (tcr_event task_creation_result);
     response ← lift (from_task_creation_result task_creation_result request_id);
     mret (Created response))
    (fun e =>
       if isinstance e TaskValidationException
       then r ← from_validation_exception e request_id; mret (Failed r)
       else if isinstance e TaskBusinessRuleViolationException
       then r ← from_business_rule_violation e request_id; mret (Failed r)
       else if isinstance e TaskSecurityException
       then r ← from_security_exception e request_id; mret (Failed r)
       else if isinstance e TaskCreationException
       then r ← from_infrastructure_error (u "タスクの作成に失敗しました") request_id;
            mret (Failed r)
       else r ← from_unknown_error request_id; mret (Failed r)).

End Application.

(** ** Vocabulary of the statements

    What the properties below are stated with: the predicates on patterns and
    texts, the sample worlds and requests of the closed statements, and the
    values and states the steps of the pipeline produce. *)

Section Vocabulary.
Context {U : UnicodeDB}.

(** [needs q r]: every match of [r] consumes a code point of the class [q]. *)
Fixpoint needs (q : cset) (r : regex) : Prop :=
  match r with
  | Chr p => forall c, p c = true -> q c = true
  | Cat a b => needs q a \/ needs q b
  | Alt a b => needs q a /\ needs q b
  | Eps | Rep _ _ | Eos => False
  end.

Definition lacks (q : cset) (s : str) : Prop := forallb (fun c => negb (q c)) s = true.

Definition all_allowed (s : str) : Prop := forallb strict_allowed s = true.

(** A world whose clock advances one second at every reading, five
    microseconds past the second, with an empty repository. *)
Definition ticking_world : State :=
  {| clock := fun n => 1000000 * Z.of_nat n + 5; ticks := 0;
     entropy := fun n => Z.of_nat n * 7919 + 12345678901234567890; draws := 0;
     storage := ∅; published_events := []; publish_status := ∅ |}.

(** The same world read late in the second: every reading has 950000 in its
    [microsecond] field. *)
Definition late_world : State :=
  {| clock := fun n => 1000000 * Z.of_nat n + 950000; ticks := 0;
     entropy := fun n => Z.of_nat n * 7919 + 12345678901234567890; draws := 0;
     storage := ∅; published_events := []; publish_status := ∅ |}.

Definition sample_context : TaskCreationContext :=
  {| ctx_user_id := u "user-123"; ctx_timestamp := None;
     ctx_client_info := u "web_unknown"; ctx_request_id := None |}.

Definition sample_command (name user_id : string) : CreateTaskCommand :=
  {| cmd_task_name := u name; cmd_user_id := u user_id;
     cmd_request_id := u "00000000-0000-4000-8000-000000000000";
     cmd_timestamp := 0; cmd_client_info := ClientInfo_default |}.

Definition script_block : str := u "<script>alert(1)</script>".

Definition microsecond_error : exn :=
  builtin_exn ValueError (u "microsecond must be in 0..999999").

Definition with_storage (m : gmap str task_data) (st : State) : State :=
  {| clock := clock st; ticks := ticks st; entropy := entropy st;
     draws := draws st; storage := m;
     published_events := published_events st;
     publish_status := publish_status st |}.

(** A task as [Task.create] builds it. *)
Definition sample_task : Task :=
  {| task_id := {| tid_value := u "00000000-0000-4000-8000-000000000000" |};
     task_name := {| tn_value := u "Test Task" |};
     status := {| enum_value := PENDING |};
     created_at := {| dtv_value := 5 |};
     updated_at := {| dtv_value := 5 |} |}.

(** The text of [hex32 x] with the four dashes of [uuid_str]. *)
Definition dashed (h : str) : str :=
  firstn 8 h ++ u "-" ++ firstn 4 (skipn 8 h) ++ u "-" ++ firstn 4 (skipn 12 h)
    ++ u "-" ++ firstn 4 (skipn 16 h) ++ u "-" ++ skipn 20 h.

Definition hex_or_dash (c : N) : bool := is_lower_hex c || (c =? 45)%N.

Definition gate_error : exn :=
  creation_exn TaskCreationException
    (u "タスク作成処理に失敗しました: " ++ u "タスク作成の事前条件を満たしていません").

Definition validation_failed (name : str) (ctx : TaskCreationContext) : exn :=
  validation_exn TaskValidationException (u "バリデーションに失敗しました")
                 (map vv_message (all_violations name ctx)).

(** What the caller receives when the precondition gate refuses a request. *)
Definition gate_payload (command : CreateTaskCommand) (st : State)
  : CreateTaskErrorResponse :=
  {| err_error_code := INFRASTRUCTURE_ERROR;
     err_error_message := u "タスクの作成に失敗しました";
     err_details := [];
     err_timestamp := clock st (ticks st);
     err_request_id := Some (cmd_request_id command) |}.

(** What the caller receives when the business-rule validator finds a
    violation: the messages of the violations, without their rule ids. *)
Definition validation_payload (command : CreateTaskCommand) (st : State)
  : CreateTaskErrorResponse :=
  {| err_error_code := VALIDATION_ERROR;
     err_error_message := u "バリデーションに失敗しました";
     err_details :=
       map (detail "VALIDATION_FAILED")
           (map vv_message
                (all_violations (cmd_task_name command) (to_creation_context command)));
     err_timestamp := clock st (S (ticks st));
     err_request_id := Some (cmd_request_id command) |}.

Definition inv004 : exn :=
  validation_exn TaskValidationException
    (u "INV-004: createdAt は updatedAt より前または同じ日時である必要があります") [].

(** The task [Task.create] builds in the state [st]: a fresh identifier and
    two successive clock readings. *)
Definition created_task (name : TaskName) (st : State) : Task :=
  {| task_id := {| tid_value := uuid_str (uuid4_int (entropy st (draws st))) |};
     task_name := name;
     status := {| enum_value := PENDING |};
     created_at := {| dtv_value := clock st (ticks st) |};
     updated_at := {| dtv_value := clock st (S (ticks st)) |} |}.

(** The event [create_domain_event] builds for a task in the state [st]. *)
Definition created_event (t : Task) (user_id : str) (st : State) : TaskCreatedEvent :=
  {| ev_event_id := uuid_str (uuid4_int (entropy st (draws st)));
     ev_aggregate_id := tid_value (task_id t);
     ev_aggregate_type := u "Task";
     ev_occurred_at := clock st (ticks st);
     ev_version := 1;
     ev_task_id := tid_value (task_id t);
     ev_task_name := tn_value (task_name t);
     ev_user_id := user_id;
     ev_created_at := dtv_value (created_at t) |}.

(** The result of [create_task_with_event] when the clock does not go
    backwards between the two readings of [Task.create]. *)
Definition creation_result (name : TaskName) (user_id : str) (st : State)
  : TaskCreationResult :=
  {| tcr_task := created_task name st;
     tcr_event := created_event (created_task name st) user_id (tick (tick (draw st)));
     tcr_success := true;
     tcr_created_at := clock st (ticks st) |}.

(** The state [publish] leaves behind. *)
Definition published_state (event : TaskCreatedEvent) (st : State) : State :=
  {| clock := clock st; ticks := S (S (ticks st)); entropy := entropy st;
     draws := draws st; storage := storage st;
     published_events :=
       published_events st ++
       [{| pe_event_id := ev_event_id event; pe_event_type := u "TaskCreated";
           pe_aggregate_id := ev_aggregate_id event;
           pe_aggregate_type := ev_aggregate_type event;
           pe_occurred_at := isoformat (ev_occurred_at event);
           pe_version := ev_version event;
           pe_task_id := ev_task_id event; pe_task_name := ev_task_name event;
           pe_user_id := ev_user_id event;
           pe_created_at := isoformat (ev_created_at event);
           pe_published_at := isoformat (clock st (ticks st));
           pe_publisher := u "EventPublisherImpl";
           pe_delivery_status := u "DELIVERED" |}];
     publish_status :=
       <[ev_event_id event :=
           {| ps_event_id := ev_event_id event; ps_status := u "PUBLISHED";
              ps_published_at := clock st (S (ticks st)) |}]> (publish_status st) |}.

(** The payload of a creation, three clock readings after the request
    started. *)
Definition created_payload (command : CreateTaskCommand) (tn : TaskName) (st : State)
  : CreateTaskResponse :=
  {| resp_task_id := uuid_str (uuid4_int (entropy st (draws st)));
     resp_task_name := tn_value tn;
     resp_status := u "未完了";
     resp_created_at := clock st (3 + ticks st)%nat;
     resp_message := u "タスクが正常に追加されました";
     resp_request_id := Some (cmd_request_id command) |}.

(** The state a creation leaves behind: eight clock readings, two draws, the
    task stored under its identifier, the event published. *)
Definition created_state (command : CreateTaskCommand) (tn : TaskName) (st : State)
  : State :=
  let st3 := tick (tick (tick st)) in
  let result := creation_result tn (cmd_user_id command) st3 in
  published_state (tcr_event result)
    (with_storage
       (<[tid_value (task_id (tcr_task result))
          := _task_to_storage_dict (tcr_task result)]> (storage st))
       (tick (draw (tick (tick (draw st3)))))).

Definition meeting_slides : TaskName := {| tn_value := u "Prepare meeting slides" |}.

End Vocabulary.

(** * Properties *)

(** ** Sanity checks of the embedding *)

Example u_ascii : u "a<b" = [97; 60; 98]%N.
Proof. reflexivity. Qed.

Example u_kanji : u "未完了" = [26410; 23436; 20102]%N.
Proof. reflexivity. Qed.

Example strip_ex : strip (u "  a b ") = u "a b".
Proof. reflexivity. Qed.

Example escape_ex : html_escape (u "<a href='x'>") = u "&lt;a href=&#x27;x&#x27;&gt;".
Proof. reflexivity. Qed.

Example replace_ex : replace (u "urn:") [] (u "urn:uuid:12") = u "uuid:12".
Proof. reflexivity. Qed.

Example str_of_nat_ex : str_of_nat 150 = u "150".
Proof. reflexivity. Qed.

Example uuid_str_ex :
  uuid_str (uuid4_int 0) = u "00000000-0000-4000-8000-000000000000".
Proof. reflexivity. Qed.

Example uuid_UUID_ex :
  @uuid_UUID ascii_db (u "{12345678-1234-5678-1234-567812345678}")
  = Some 24197857161011715162171839636988778104.
Proof. reflexivity. Qed.

Example uuid_UUID_bad : @uuid_UUID ascii_db (u "not-a-uuid") = None.
Proof. reflexivity. Qed.

(** ** Strings *)



Lemma starts_with_split (p s : str) :
  starts_with p s = true -> exists post, s = p ++ post.
Proof.
  revert s. induction p as [|a p IH]; intros s H; simpl in *.
  - exists s. reflexivity.
  - destruct s as [|b s]; [discriminate|].
    apply andb_prop in H as [Hab Hp].
    apply N.eqb_eq in Hab. subst b.
    destruct (IH s Hp) as [post ->]. exists post. reflexivity.
Qed.

Lemma starts_with_app (p post : str) : starts_with p (p ++ post) = true.
Proof.
  induction p as [|a p IH]; simpl; [reflexivity|].
  rewrite N.eqb_refl. exact IH.
Qed.

Lemma contains_split (p s : str) :
  contains p s = true -> exists pre post, s = pre ++ p ++ post.
Proof.
  induction s as [|c s IH]; simpl; intros H.
  - apply orb_prop in H as [H|H]; [|discriminate].
    destruct (starts_with_split _ _ H) as [post ->]. exists [], post. reflexivity.
  - apply orb_prop in H as [H|H].
    + destruct (starts_with_split _ _ H) as [post ->]. exists [], post. reflexivity.
    + destruct (IH H) as (pre & post & ->). exists (c :: pre), post. reflexivity.
Qed.

Lemma contains_app (pre p post : str) : contains p (pre ++ p ++ post) = true.
Proof.
  induction pre as [|c pre IH]; simpl.
  - destruct (p ++ post) eqn:E; simpl; rewrite <- E, starts_with_app; reflexivity.
  - rewrite IH. apply orb_true_r.
Qed.

(** ** The matcher *)

Section MatcherFacts.

(** A text from which the continuation never succeeds on any tail is a text
    on which the matcher fails. *)
Lemma rep_bt_fails (P : str -> Prop) (g : bool) (p : cset) (k : str -> option str) :
  (forall c t, P (c :: t) -> P t) ->
  (forall t, P t -> k t = None) ->
  forall s, P s -> rep_bt g p k s = None.
Proof.
  intros Htail Hk. induction s as [|c s IH]; intros Hs; simpl.
  - apply Hk, Hs.
  - rewrite (Hk _ Hs), (IH (Htail _ _ Hs)).
    destruct g, (p c); reflexivity.
Qed.

Lemma bt_fails (P : str -> Prop) :
  (forall c t, P (c :: t) -> P t) ->
  forall r s k, P s -> (forall t, P t -> k t = None) -> bt r s k = None.
Proof.
  intros Htail. induction r as [|p|a IHa b IHb|a IHa b IHb|g p|]; intros s k Hs Hk; simpl.
  - apply Hk, Hs.
  - destruct s as [|c s]; [reflexivity|].
    destruct (p c); [|reflexivity]. apply Hk. eapply Htail, Hs.
  - apply IHa; [exact Hs|]. intros t Ht. apply IHb; assumption.
  - rewrite (IHa s k Hs Hk), (IHb s k Hs Hk). reflexivity.
  - apply (rep_bt_fails P); assumption.
  - rewrite (Hk s Hs). destruct s as [|c [|? ?]]; try reflexivity;
      destruct c as [|x]; try reflexivity;
      do 4 (try destruct x as [x|x|]; try reflexivity).
Qed.

Lemma lacks_tail (q : cset) (c : N) (t : str) : lacks q (c :: t) -> lacks q t.
Proof. unfold lacks. simpl. intros H. apply andb_prop in H. tauto. Qed.

Lemma lacks_app (q : cset) (a b : str) : lacks q a -> lacks q b -> lacks q (a ++ b).
Proof. unfold lacks. intros Ha Hb. rewrite forallb_app, Ha, Hb. reflexivity. Qed.

Lemma bt_needs (q : cset) (r : regex) :
  needs q r -> forall s k, lacks q s -> bt r s k = None.
Proof.
  induction r as [|p|a IHa b IHb|a IHa b IHb|g p|]; simpl; intros Hn s k Hs;
    try contradiction.
  - destruct s as [|c s]; [reflexivity|].
    destruct (p c) eqn:Hp; [|reflexivity].
    unfold lacks in Hs. simpl in Hs. rewrite (Hn c Hp) in Hs. discriminate.
  - destruct Hn as [Hn|Hn].
    + apply IHa; assumption.
    + apply (bt_fails (lacks q) (lacks_tail q)); [exact Hs|].
      intros t Ht. apply IHb; assumption.
  - destruct Hn as [Ha Hb]. rewrite (IHa Ha s k Hs), (IHb Hb s k Hs). reflexivity.
Qed.

Lemma sub_go_lacks (q : cset) (r : regex) (repl : str) :
  needs q r -> forall s, lacks q s -> sub_go r repl O s = s.
Proof.
  intros Hn. induction s as [|c s IH]; intros Hs; simpl; [reflexivity|].
  unfold match_at. rewrite (bt_needs q r Hn _ _ Hs).
  rewrite (IH (lacks_tail _ _ _ Hs)). reflexivity.
Qed.

(** A substitution leaves alone a text that lacks a code point the pattern
    needs. *)
Lemma re_sub_lacks (q : cset) (r : regex) (repl s : str) :
  needs q r -> lacks q s -> re_sub r repl s = s.
Proof. intros Hn Hs. unfold re_sub. apply (sub_go_lacks q); assumption. Qed.

Lemma search_lacks (q : cset) (r : regex) (s : str) :
  needs q r -> lacks q s -> search r s = false.
Proof.
  intros Hn. induction s as [|c s IH]; intros Hs; simpl; unfold match_at;
    rewrite (bt_needs q r Hn _ _ Hs); [reflexivity|].
  apply IH. eapply lacks_tail, Hs.
Qed.

(** A match somewhere in the text is found by [search]. *)
Lemma search_app (r : regex) (pre s : str) :
  match_at r s <> None -> search r (pre ++ s) = true.
Proof.
  intros H. induction pre as [|c pre IH]; simpl.
  - destruct s; simpl; destruct (match_at r _); congruence.
  - destruct (match_at r (c :: pre ++ s)); [reflexivity|exact IH].
Qed.

(** Substituting the empty text for one class is filtering its complement. *)
Lemma re_sub_class (p : cset) (s : str) :
  re_sub (Chr p) [] s = List.filter (fun c => negb (p c)) s.
Proof.
  unfold re_sub. induction s as [|c s IH]; simpl; [reflexivity|].
  unfold match_at. simpl. destruct (p c); simpl.
  - replace (Nat.ltb (length s) (S (length s))) with true
      by (symmetry; apply Nat.ltb_lt; lia).
    rewrite Nat.sub_diag. exact IH.
  - rewrite IH. reflexivity.
Qed.

End MatcherFacts.

(** ** The sanitizer *)

Ltac find_need :=
  lazymatch goal with
  | |- _ \/ _ => first [ left; find_need | right; find_need ]
  | |- _ /\ _ => split; find_need
  | |- forall c, _ -> _ => let c := fresh "c" in let H := fresh "H" in
                           intros c H; exact H
  end.

Section SanitizerFacts.
Context {U : UnicodeDB}.

(** The five code points [html.escape] rewrites are outside the strict class. *)
Lemma strict_allowed_escape (c : N) : strict_allowed c = true -> escape_cp c = [c].
Proof.
  intros H. unfold escape_cp.
  repeat match goal with
         | |- context [(c =? ?k)%N] =>
             destruct (N.eqb_spec c k) as [->|_]; [vm_compute in H; discriminate|]
         end.
  reflexivity.
Qed.

Lemma html_escape_allowed (s : str) : all_allowed s -> html_escape s = s.
Proof.
  unfold all_allowed, html_escape. induction s as [|c s IH]; simpl; [reflexivity|].
  intros H. apply andb_prop in H as [Hc Hs].
  rewrite (strict_allowed_escape c Hc), (IH Hs). reflexivity.
Qed.

Lemma allowed_lacks (q : cset) (s : str) :
  (forall c, q c = true -> strict_allowed c = false) -> all_allowed s -> lacks q s.
Proof.
  intros Hq. unfold all_allowed, lacks. induction s as [|c s IH]; simpl; [reflexivity|].
  intros H. apply andb_prop in H as [Hc Hs]. rewrite (IH Hs), andb_true_r.
  destruct (q c) eqn:E; [|reflexivity]. rewrite (Hq c E) in Hc. discriminate.
Qed.

Lemma lit_not_allowed (k : N) :
  strict_allowed k = false -> forall c, lit k c = true -> strict_allowed c = false.
Proof. intros Hk c H. apply N.eqb_eq in H. subst c. exact Hk. Qed.

Lemma quotes_not_allowed (c : N) : one_of quotes c = true -> strict_allowed c = false.
Proof.
  unfold one_of, quotes, mem_cp. simpl. intros H.
  destruct (N.eqb_spec c 34) as [E|_]; [subst c; reflexivity|].
  destruct (N.eqb_spec c 39) as [E|_]; [subst c; reflexivity|]. discriminate.
Qed.

(** Each dangerous pattern needs a code point outside the strict class: [<],
    [:], a quote, [<]. *)
Lemma dangerous_patterns_need :
  Forall2 (fun (p : regex * str * str) (q : cset) => needs q (fst (fst p)))
          dangerous_patterns [lit 60; lit 58; one_of quotes; lit 60].
Proof.
  unfold dangerous_patterns.
  repeat (constructor; [vm_compute; find_need|]). constructor.
Qed.

Lemma sanitize_scripts_step_allowed (p : regex * str * str) (q : cset) (s : str) :
  needs q (fst (fst p)) -> lacks q s ->
  sanitize_scripts_step (s, []) p = (s, []).
Proof.
  intros Hn Hs. destruct p as [[r src] repl]. simpl in *.
  rewrite (re_sub_lacks q r repl s Hn Hs).
  rewrite bool_decide_eq_true_2; reflexivity.
Qed.

Lemma fold_steps_allowed (ps : list (regex * str * str)) (qs : list cset) (s : str) :
  Forall2 (fun (p : regex * str * str) (q : cset) => needs q (fst (fst p))) ps qs ->
  Forall (fun q => lacks q s) qs ->
  fold_left sanitize_scripts_step ps (s, []) = (s, []).
Proof.
  intros H. induction H as [|p q ps qs Hpq _ IH]; intros Hq; cbn [fold_left];
    [reflexivity|].
  inversion Hq as [|? ? Hl Hq']; subst.
  rewrite (sanitize_scripts_step_allowed p q s Hpq Hl). apply IH, Hq'.
Qed.

(** On a text of the strict class [_sanitize_scripts] changes nothing. *)
Lemma sanitize_scripts_allowed (s : str) : all_allowed s -> _sanitize_scripts s = (s, []).
Proof.
  intros H. unfold _sanitize_scripts.
  apply (fold_steps_allowed _ _ s dangerous_patterns_need).
  repeat constructor; apply allowed_lacks; try exact H;
    first [apply quotes_not_allowed | apply lit_not_allowed; reflexivity].
Qed.

Lemma filter_allowed_id (s : str) :
  all_allowed s -> List.filter (fun c => negb (negb (strict_allowed c))) s = s.
Proof.
  unfold all_allowed. induction s as [|c s IH]; simpl; [reflexivity|].
  intros H. apply andb_prop in H as [Hc Hs]. rewrite Hc. simpl. rewrite (IH Hs).
  reflexivity.
Qed.

Lemma filter_allowed_all (s : str) :
  all_allowed (List.filter (fun c => negb (negb (strict_allowed c))) s).
Proof.
  unfold all_allowed. induction s as [|c s IH]; simpl; [reflexivity|].
  destruct (strict_allowed c) eqn:E; simpl; [rewrite E|]; exact IH.
Qed.

Lemma sanitize_special_chars_strict (s : str) :
  fst (_sanitize_special_chars s STRICT)
  = List.filter (fun c => negb (negb (strict_allowed c))) s.
Proof.
  unfold _sanitize_special_chars. simpl. rewrite re_sub_class.
  case_bool_decide as E; simpl; [symmetry; exact E|reflexivity].
Qed.

Lemma sanitize_special_chars_allowed (s : str) :
  all_allowed s -> _sanitize_special_chars s STRICT = (s, []).
Proof.
  intros H. unfold _sanitize_special_chars. simpl.
  rewrite re_sub_class, (filter_allowed_id s H).
  rewrite bool_decide_eq_true_2; reflexivity.
Qed.

Lemma all_allowed_firstn (n : nat) (s : str) : all_allowed s -> all_allowed (firstn n s).
Proof.
  unfold all_allowed. revert n. induction s as [|c s IH]; intros [|n] H; simpl;
    try reflexivity.
  simpl in H. apply andb_prop in H as [Hc Hs]. rewrite Hc. simpl. auto.
Qed.

Lemma apply_length_limit_short (s : str) :
  (length s <= MAX_LENGTH)%nat -> _apply_length_limit s = (s, []).
Proof.
  intros H. unfold _apply_length_limit.
  replace (Nat.ltb MAX_LENGTH (length s)) with false; [reflexivity|].
  symmetry. apply Nat.ltb_ge. exact H.
Qed.

Lemma apply_length_limit_bound (s : str) :
  (length (fst (_apply_length_limit s)) <= MAX_LENGTH)%nat.
Proof.
  unfold _apply_length_limit.
  destruct (Nat.ltb MAX_LENGTH (length s)) eqn:E; simpl.
  - rewrite length_firstn. lia.
  - apply Nat.ltb_ge in E. exact E.
Qed.

Lemma apply_length_limit_allowed (s : str) :
  all_allowed s -> all_allowed (fst (_apply_length_limit s)).
Proof.
  intros H. unfold _apply_length_limit.
  destruct (Nat.ltb MAX_LENGTH (length s)); simpl; [apply all_allowed_firstn|]; exact H.
Qed.

(** What the strict sanitizer returns is of the strict class and at most
    [MAX_LENGTH] long. *)
Lemma sanitize_text_strict_allowed (x : str) :
  all_allowed (fst (sanitize_text x STRICT))
  /\ (length (fst (sanitize_text x STRICT)) <= MAX_LENGTH)%nat.
Proof.
  unfold sanitize_text.
  destruct (_sanitize_html x) as [c1 m1].
  destruct (_sanitize_scripts c1) as [c2 m2].
  pose proof (sanitize_special_chars_strict c2) as H3.
  destruct (_sanitize_special_chars c2 STRICT) as [c3 m3]. simpl in H3.
  unfold _apply_whitelist_filter.
  pose proof (apply_length_limit_bound c3) as Hb.
  pose proof (apply_length_limit_allowed c3) as Ha.
  destruct (_apply_length_limit c3) as [c5 m5]. simpl in *.
  split; [|exact Hb]. apply Ha. subst c3. apply filter_allowed_all.
Qed.

(** On a text of the strict class, at most [MAX_LENGTH] long, the strict
    sanitizer changes nothing and records nothing. *)
Lemma sanitize_text_fixpoint (y : str) :
  all_allowed y -> (length y <= MAX_LENGTH)%nat -> sanitize_text y STRICT = (y, []).
Proof.
  intros Ha Hl. unfold sanitize_text, _sanitize_html.
  rewrite (html_escape_allowed y Ha). rewrite bool_decide_eq_true_2 by reflexivity.
  rewrite (sanitize_scripts_allowed y Ha), (sanitize_special_chars_allowed y Ha).
  unfold _apply_whitelist_filter. rewrite (apply_length_limit_short y Hl). reflexivity.
Qed.

End SanitizerFacts.

Section SanitizerClaims.
Context {U : UnicodeDB}.

(** [sanitize_task_input] always returns, one clock reading later, and its
    clean text is the text of [sanitize_text] under the policy in force. *)
Lemma sanitize_task_input_run (self_policy : SanitizationPolicy) (x : str)
    (pol : option SanitizationPolicy) (st : State) :
  sanitize_task_input self_policy x pol st
  = (Ok {| clean_input := fst (sanitize_text x (default self_policy pol));
           modifications := snd (sanitize_text x (default self_policy pol));
           si_risk_level :=
             match snd (sanitize_text x (default self_policy pol)) with
             | [] => NONE
             | _ => _calculate_risk_level
                      (snd (sanitize_text x (default self_policy pol)))
             end;
           sanitized_at := clock st (ticks st) |}, tick st).
Proof.
  unfold sanitize_task_input.
  destruct (sanitize_text x (default self_policy pol)) as [c m]. reflexivity.
Qed.

(** C7.  Sanitization under the strict policy is idempotent: sanitizing the
    clean text that [sanitize_task_input] returned for any input [x], again
    under the strict policy (named by the caller or taken from the service),
    returns the same clean text. *)
Theorem sanitize_task_input_idempotent (self_policy : SanitizationPolicy)
    (pol : option SanitizationPolicy) (x : str) (st1 st2 : State) :
  default self_policy pol = STRICT ->
  exists (s1 s2 : SanitizedInput) (st1' st2' : State),
    sanitize_task_input self_policy x pol st1 = (Ok s1, st1')
    /\ sanitize_task_input self_policy (clean_input s1) pol st2 = (Ok s2, st2')
    /\ clean_input s2 = clean_input s1.
Proof.
  intros Hp. eexists _, _, _, _.
  split; [apply sanitize_task_input_run|].
  split; [apply sanitize_task_input_run|].
  cbn [clean_input]. rewrite Hp.
  destruct (sanitize_text_strict_allowed x) as [Ha Hl].
  rewrite (sanitize_text_fixpoint _ Ha Hl). reflexivity.
Qed.

End SanitizerClaims.

Lemma sanitize_task_input_idempotent_witness :
  default STRICT (Some STRICT) = STRICT
  /\ exists (s1 s2 : SanitizedInput) (st1' st2' : State),
       @sanitize_task_input ascii_db STRICT (u "<b>Tom & Jerry</b> javascript:go()")
         (Some STRICT) ticking_world = (Ok s1, st1')
       /\ @sanitize_task_input ascii_db STRICT (clean_input s1) (Some STRICT) late_world
          = (Ok s2, st2')
       /\ clean_input s2 = clean_input s1.
Proof.
  split; [reflexivity|].
  exact (@sanitize_task_input_idempotent ascii_db STRICT (Some STRICT)
           (u "<b>Tom & Jerry</b> javascript:go()") ticking_world late_world eq_refl).
Defined.

(** ** The security validator *)

Section SecurityClaims.
Context {U : UnicodeDB}.

(** With no threat the action is ALLOW, and with exactly one threat it
    follows the threat's level. *)
Lemma determine_recommended_action_at_most_one (threats : list SecurityThreat) :
  (length threats <= 1)%nat ->
  _determine_recommended_action threats =
  Ok (match threats with
      | [] => ALLOW
      | t :: _ =>
          match risk_level t with
          | CRITICAL => REJECT
          | HIGH => SANITIZE
          | MEDIUM => AUDIT
          | LOW | NONE => ALLOW
          end
      end).
Proof.
  destruct threats as [|t [|t' ts]]; simpl; intros H; try lia; [reflexivity|].
  destruct (risk_level t); reflexivity.
Qed.

Lemma determine_recommended_action_two (threats : list SecurityThreat) :
  (2 <= length threats)%nat ->
  exists e, _determine_recommended_action threats = Raise e /\ exn_cls e = TypeError.
Proof.
  destruct threats as [|t [|t' ts]]; simpl; intros H; try lia.
  eexists. split; reflexivity.
Qed.

(** C1.  When two or more threats are detected, [check_security_constraints]
    returns no result: taking the maximum of the levels, which are members
    of a plain [Enum], raises [TypeError]. *)
Theorem check_security_constraints_two_threats (input_text : str)
    (context : TaskCreationContext) (st : State) :
  (2 <= length (detect_threats input_text context))%nat ->
  exists e : exn,
    check_security_constraints input_text context st = (Raise e, st)
    /\ exn_cls e = TypeError.
Proof.
  intros H. destruct (determine_recommended_action_two _ H) as (e & He & Hc).
  exists e. split; [|exact Hc].
  unfold check_security_constraints, mbind, M_bind, lift. rewrite He. reflexivity.
Qed.

End SecurityClaims.

(** The defect is met by requests that break no rule: the name [config]
    followed by ninety-four [a] passes the validator, raises a REPETITIVE_DATA
    and a PRIVILEGE_ESCALATION threat, neither of them critical, and is
    answered with INFRASTRUCTURE_ERROR. *)
Example config_name_infrastructure_error :
  @all_violations ascii_db (u "config" ++ repeat 97%N 94) sample_context = []
  /\ map risk_level (@detect_threats ascii_db (u "config" ++ repeat 97%N 94) sample_context)
     = [LOW; MEDIUM]
  /\ exists (r : CreateTaskErrorResponse) (st' : State),
       @create_task ascii_db
         {| cmd_task_name := u "config" ++ repeat 97%N 94; cmd_user_id := u "user-123";
            cmd_request_id := u "00000000-0000-4000-8000-000000000000";
            cmd_timestamp := 0; cmd_client_info := ClientInfo_default |}
         ticking_world = (Ok (Failed r), st')
       /\ err_error_code r = INFRASTRUCTURE_ERROR.
Proof.
  split; [vm_compute; reflexivity|]. split; [vm_compute; reflexivity|].
  eexists _, _. split; [vm_compute; reflexivity|reflexivity].
Qed.

Lemma check_security_constraints_two_threats_witness :
  (2 <= length (@detect_threats ascii_db (u "alert(1) drop table x") sample_context))%nat
  /\ exists e : exn,
       @check_security_constraints ascii_db (u "alert(1) drop table x") sample_context
         ticking_world = (Raise e, ticking_world)
       /\ exn_cls e = TypeError.
Proof.
  split.
  - vm_compute. apply le_n.
  - apply (@check_security_constraints_two_threats ascii_db). vm_compute. apply le_n.
Defined.

(** ** Script blocks *)

Section ScriptClaims.
Context {U : UnicodeDB}.

(** The security validator flags every text that contains the script block. *)
Lemma detect_malicious_payloads_script_block (pre post : str) :
  In (threat "XSS" (u "XSS攻撃パターンが検出されました") HIGH)
     (_detect_malicious_payloads (pre ++ script_block ++ post)).
Proof.
  unfold _detect_malicious_payloads.
  assert (E : existsb (fun pattern => search pattern (pre ++ script_block ++ post))
                      security_xss_patterns = true).
  { unfold security_xss_patterns. cbn [existsb].
    rewrite search_app; [reflexivity|].
    unfold match_at. vm_compute. discriminate. }
  rewrite E. left. reflexivity.
Qed.

(** C6.  The security validator flags an XSS threat on every text that
    contains [<script>alert(1)</script>], but the sanitizer does not remove
    the block: [html.escape] runs first, so the script pattern finds no [<]
    to match, and on the block itself the strict sanitizer returns
    [ltscriptgtalert(1)ltscriptgt], which still contains [alert(1)] and
    [script]; under the other policies the escaped block is returned whole. *)
Theorem sanitizer_keeps_script_block :
  (forall pre post : str,
      In (threat "XSS" (u "XSS攻撃パターンが検出されました") HIGH)
         (_detect_malicious_payloads (pre ++ script_block ++ post)))
  /\ fst (sanitize_text script_block STRICT) = u "ltscriptgtalert(1)ltscriptgt"
  /\ contains (u "alert(1)") (fst (sanitize_text script_block STRICT)) = true
  /\ contains (u "script") (fst (sanitize_text script_block STRICT)) = true
  /\ fst (sanitize_text script_block MODERATE)
     = u "&lt;script&gt;alert(1)&lt;/script&gt;".
Proof.
  split; [exact detect_malicious_payloads_script_block|].
  repeat split; vm_compute; reflexivity.
Qed.

(** After [html.escape] no text contains [<], so the two tag patterns of
    [_sanitize_scripts] never match in [sanitize_task_input]. *)
Lemma html_escape_lacks_lt (s : str) : lacks (lit 60) (html_escape s).
Proof.
  unfold html_escape. induction s as [|c s IH]; [reflexivity|].
  cbn [flat_map]. apply lacks_app; [|exact IH].
  unfold escape_cp.
  repeat match goal with
         | |- context [(c =? ?k)%N] =>
             destruct (N.eqb_spec c k) as [E|?]; [reflexivity|]
         end.
  unfold lacks, lit. cbn [forallb]. rewrite andb_true_r.
  apply negb_true_iff, N.eqb_neq. congruence.
Qed.

(** ** Task names *)

(** C8.  [TaskName] checks its input before it sanitizes it, and keeps the
    sanitized text unchecked: [javascript:] is accepted and stored as the
    empty string, and one hundred ampersands are accepted and stored as
    five hundred code points. *)
Theorem TaskName_invariant_broken :
  TaskName_init (u "javascript:") = Ok {| tn_value := [] |}
  /\ exists t : TaskName,
       TaskName_init (repeat 38%N 100) = Ok t /\ length (tn_value t) = 500%nat.
Proof.
  split; [vm_compute; reflexivity|].
  eexists. split; vm_compute; reflexivity.
Qed.

(** What the constructor does check: the trimmed input is neither empty nor
    longer than [TaskName_MAX_LENGTH]. *)
Lemma TaskName_init_checks (value : str) (t : TaskName) :
  TaskName_init value = Ok t ->
  strip value <> []
  /\ (length (strip value) <= TaskName_MAX_LENGTH)%nat
  /\ tn_value t = TaskName_sanitize_input (strip value).
Proof.
  unfold TaskName_init.
  case_bool_decide as E0; [discriminate|].
  case_bool_decide as E; [discriminate|].
  destruct (Nat.ltb TaskName_MAX_LENGTH (length (strip value))) eqn:L; [discriminate|].
  intros Ht. inversion Ht. apply Nat.ltb_ge in L. auto.
Qed.

End ScriptClaims.

(** ** The grace window of the timestamp checks *)

Lemma microsecond_range (d : datetime) : 0 <= microsecond d < 1000000.
Proof. unfold microsecond. apply Z.mod_pos_bound. lia. Qed.

(** In the last tenth of a second the bound cannot be built. *)
Lemma replace_microsecond_late (n : datetime) :
  900000 <= microsecond n ->
  replace_microsecond n (microsecond n + 100000) = inl microsecond_error.
Proof.
  intros H. unfold replace_microsecond.
  replace (microsecond n + 100000 <=? 999999) with false
    by (symmetry; apply Z.leb_gt; lia).
  rewrite andb_false_r. reflexivity.
Qed.

(** Before that, the bound is the clock reading plus 100 ms. *)
Lemma replace_microsecond_early (n : datetime) :
  microsecond n < 900000 ->
  replace_microsecond n (microsecond n + 100000) = inr (n + 100000).
Proof.
  intros H. pose proof (microsecond_range n) as R. unfold replace_microsecond.
  replace (0 <=? microsecond n + 100000) with true by (symmetry; apply Z.leb_le; lia).
  replace (microsecond n + 100000 <=? 999999) with true
    by (symmetry; apply Z.leb_le; lia).
  simpl. f_equal. lia.
Qed.

Section StructureClaims.
Context {U : UnicodeDB}.

(** Outside the last tenth of a second, a request without a request id
    passes the structural validation exactly when its timestamp is not
    later than the clock reading plus 100 ms, and fails with
    [TaskValidationException] otherwise. *)
Lemma validate_structure_early (name user_id : str) (ts : datetime) (st : State) :
  name <> [] -> user_id <> [] ->
  microsecond (clock st (ticks st)) < 900000 ->
  _validate_structure name user_id None (Some ts) st =
  if ts >? clock st (ticks st) + 100000
  then (Raise (validation_exn TaskValidationException
                 (u "タイムスタンプは現在時刻以前である必要があります") []), tick st)
  else (Ok tt, tick st).
Proof.
  intros Hn Hu Hm. unfold _validate_structure, mbind, M_bind, mret, M_ret, now, raise.
  rewrite !bool_decide_eq_false_2 by assumption.
  rewrite (replace_microsecond_early _ Hm).
  destruct (ts >? clock st (ticks st) + 100000); reflexivity.
Qed.

(** C9.  The structural validation is not total on the clock: when the
    reading of [datetime.now()] has 900000 or more in its [microsecond]
    field, every request that carries a timestamp, whatever the timestamp,
    raises [ValueError] from [now.replace], which is not a
    [TaskValidationException]. *)
Theorem validate_structure_raises_ValueError (name user_id : str)
    (request_id : option str) (ts : datetime) (st : State) :
  name <> [] -> user_id <> [] ->
  900000 <= microsecond (clock st (ticks st)) ->
  _validate_structure name user_id request_id (Some ts) st
  = (Raise microsecond_error, tick st)
  /\ isinstance microsecond_error TaskValidationException = false.
Proof.
  intros Hn Hu Hm. split; [|reflexivity].
  unfold _validate_structure, mbind, M_bind, mret, M_ret, now, raise.
  rewrite !bool_decide_eq_false_2 by assumption.
  rewrite (replace_microsecond_late _ Hm). reflexivity.
Qed.

(** The same defect stops [DateTimeValue.__init__] on any given value. *)
Lemma DateTimeValue_init_late (v : datetime) (st : State) :
  900000 <= microsecond (clock st (ticks st)) ->
  DateTimeValue_init (Some v) st = (Raise microsecond_error, tick st).
Proof.
  intros Hm. unfold DateTimeValue_init, mbind, M_bind, now, raise.
  rewrite (replace_microsecond_late _ Hm). reflexivity.
Qed.

End StructureClaims.

Lemma validate_structure_raises_ValueError_witness :
  u "Prepare meeting slides" <> [] /\ u "user-123" <> []
  /\ 900000 <= microsecond (clock late_world (ticks late_world))
  /\ @_validate_structure ascii_db (u "Prepare meeting slides") (u "user-123") None
       (Some 0) late_world
     = (Raise microsecond_error, tick late_world)
  /\ isinstance microsecond_error TaskValidationException = false.
Proof.
  assert (H1 : u "Prepare meeting slides" <> []) by (vm_compute; discriminate).
  assert (H2 : u "user-123" <> []) by (vm_compute; discriminate).
  assert (H3 : 900000 <= microsecond (clock late_world (ticks late_world)))
    by (vm_compute; discriminate).
  split; [exact H1|]. split; [exact H2|]. split; [exact H3|].
  exact (@validate_structure_raises_ValueError ascii_db _ _ None 0 late_world H1 H2 H3).
Defined.

(** ** The repository *)

Section RepositoryClaims.
Context {U : UnicodeDB}.

(** [save] always succeeds and binds the task's dictionary to its id. *)
Lemma save_returns (t : Task) (st : State) :
  save t st
  = (Ok t, with_storage (<[tid_value (task_id t) := _task_to_storage_dict t]> (storage st)) st).
Proof. reflexivity. Qed.

(** An id that is not a key of the storage is not found. *)
Lemma find_by_id_absent (tid : TaskId) (st : State) :
  storage st !! tid_value tid = None -> find_by_id tid st = (Ok None, st).
Proof.
  intros H. unfold find_by_id, try_except, mbind, M_bind, get_storage.
  rewrite H. reflexivity.
Qed.

(** In the last tenth of a second no stored task can be restored. *)
Lemma restore_task_late (tid name stat : str) (c up : iso_string) (st : State) :
  900000 <= microsecond (clock st (ticks st)) ->
  exists (e : exn) (st' : State), restore_task tid name stat c up st = (Raise e, st').
Proof.
  intros Hm. unfold restore_task, try_except, mbind, M_bind, lift, raise.
  destruct (TaskId_init tid); [|eexists _, _; reflexivity].
  destruct (TaskName_init name); [|eexists _, _; reflexivity].
  destruct (TaskStatus_init (Some stat)); [|eexists _, _; reflexivity].
  unfold CreatedAt_init. rewrite (DateTimeValue_init_late _ _ Hm).
  eexists _, _; reflexivity.
Qed.

(** C10.  A saved task is not always found again: [find_by_id] rebuilds the
    task through [TaskFactory.restore_task], whose [CreatedAt(...)] reads the
    clock and raises [ValueError] when the reading has 900000 or more in its
    [microsecond] field; [find_by_id] turns the failure into [None]. *)
Theorem find_by_id_after_save_late (t : Task) (st : State) :
  900000 <= microsecond (clock st (ticks st)) ->
  exists st1 st2 : State,
    save t st = (Ok t, st1) /\ find_by_id (task_id t) st1 = (Ok None, st2).
Proof.
  intros Hm.
  set (st1 := with_storage
                (<[tid_value (task_id t) := _task_to_storage_dict t]> (storage st)) st).
  destruct (restore_task_late (tid_value (task_id t)) (tn_value (task_name t))
              (TaskStatus_str (status t)) (to_iso_string (created_at t))
              (to_iso_string (updated_at t)) st1 Hm) as (e' & st' & E).
  exists st1, st'. split; [apply save_returns|].
  unfold find_by_id, try_except, mbind, M_bind, get_storage.
  subst st1. cbn [storage with_storage]. rewrite lookup_insert_eq.
  unfold _storage_dict_to_task. cbn [td_task_id td_task_name td_status td_created_at
    td_updated_at _task_to_storage_dict].
  rewrite E. reflexivity.
Qed.

(** A second way to lose a saved task, at any clock reading: a name that the
    constructor stored empty is refused when the task is restored. *)
Lemma restore_task_empty_name (tid stat : str) (c up : iso_string) (st : State) :
  exists (e : exn) (st' : State), restore_task tid [] stat c up st = (Raise e, st').
Proof.
  unfold restore_task, try_except, mbind, M_bind, lift, raise.
  destruct (TaskId_init tid); eexists _, _; reflexivity.
Qed.

End RepositoryClaims.

Lemma find_by_id_after_save_late_witness :
  900000 <= microsecond (clock late_world (ticks late_world))
  /\ exists st1 st2 : State,
       @save sample_task late_world = (Ok sample_task, st1)
       /\ @find_by_id ascii_db (task_id sample_task) st1 = (Ok None, st2).
Proof.
  assert (H : 900000 <= microsecond (clock late_world (ticks late_world)))
    by (vm_compute; discriminate).
  split; [exact H|].
  exact (@find_by_id_after_save_late ascii_db sample_task late_world H).
Defined.

(** ** Identifiers *)

Section ListFacts.

Lemma forallb_impl {A : Type} (f g : A -> bool) (l : list A) :
  (forall x, f x = true -> g x = true) -> forallb f l = true -> forallb g l = true.
Proof.
  intros Hfg. induction l as [|x l IH]; simpl; [reflexivity|].
  intros H. apply andb_prop in H as [Hx Hl]. rewrite (Hfg x Hx), (IH Hl). reflexivity.
Qed.

Lemma forallb_firstn {A : Type} (f : A -> bool) (n : nat) (l : list A) :
  forallb f l = true -> forallb f (firstn n l) = true.
Proof.
  revert n. induction l as [|x l IH]; intros [|n] H; simpl; try reflexivity.
  simpl in H. apply andb_prop in H as [Hx Hl]. rewrite Hx. simpl. auto.
Qed.

Lemma forallb_skipn {A : Type} (f : A -> bool) (n : nat) (l : list A) :
  forallb f l = true -> forallb f (skipn n l) = true.
Proof.
  revert n. induction l as [|x l IH]; intros [|n] H; simpl; try reflexivity;
    try exact H.
  simpl in H. apply andb_prop in H as [Hx Hl]. auto.
Qed.

Lemma forallb_rev {A : Type} (f : A -> bool) (l : list A) :
  forallb f l = true -> forallb f (rev l) = true.
Proof.
  intros H. apply forallb_forall. intros x Hx. apply in_rev in Hx.
  rewrite forallb_forall in H. auto.
Qed.

Lemma filter_all {A : Type} (f : A -> bool) (l : list A) :
  forallb f l = true -> List.filter f l = l.
Proof.
  induction l as [|x l IH]; simpl; [reflexivity|].
  intros H. apply andb_prop in H as [Hx Hl]. rewrite Hx, (IH Hl). reflexivity.
Qed.

End ListFacts.

Section ReplaceFacts.

(** A text without the first code point of [old] has no occurrence of it. *)
Lemma replace_absent (a : N) (old new s : str) :
  forallb (fun c => negb (a =? c)%N) s = true -> replace (a :: old) new s = s.
Proof.
  unfold replace. induction s as [|c s IH]; simpl; [reflexivity|].
  intros H. apply andb_prop in H as [Hc Hs].
  apply negb_true_iff in Hc. rewrite Hc. simpl. rewrite (IH Hs). reflexivity.
Qed.

(** Deleting a single code point is filtering it out. *)
Lemma replace_single (a : N) (s : str) :
  replace [a] [] s = List.filter (fun c => negb (a =? c)%N) s.
Proof.
  unfold replace. induction s as [|c s IH]; simpl; [reflexivity|].
  destruct (a =? c)%N; simpl; rewrite IH; reflexivity.
Qed.

Lemma lstrip_chars_absent (cs s : str) :
  forallb (fun c => negb (mem_cp c cs)) s = true -> lstrip_chars cs s = s.
Proof.
  destruct s as [|c s]; simpl; [reflexivity|].
  intros H. apply andb_prop in H as [Hc _]. apply negb_true_iff in Hc.
  rewrite Hc. reflexivity.
Qed.

Lemma strip_chars_absent (cs s : str) :
  forallb (fun c => negb (mem_cp c cs)) s = true -> strip_chars cs s = s.
Proof.
  intros H. unfold strip_chars. rewrite (lstrip_chars_absent cs s H).
  rewrite (lstrip_chars_absent cs (rev s) (forallb_rev _ _ H)). apply rev_involutive.
Qed.

End ReplaceFacts.

Section HexFacts.

Lemma is_lower_hex_cases (c : N) :
  is_lower_hex c = true ->
  In c [48; 49; 50; 51; 52; 53; 54; 55; 56; 57; 97; 98; 99; 100; 101; 102]%N.
Proof.
  unfold is_lower_hex, is_digit_ascii. intros H.
  apply orb_prop in H as [H|H]; apply andb_prop in H as [H1 H2];
    apply N.leb_le in H1, H2.
  - replace c with (48 + N.of_nat (N.to_nat (c - 48)))%N by lia.
    assert (Hk : (N.to_nat (c - 48) < 10)%nat) by lia.
    revert Hk. generalize (N.to_nat (c - 48)). intros k Hk.
    do 10 (destruct k as [|k]; [cbn; tauto|]). lia.
  - replace c with (97 + N.of_nat (N.to_nat (c - 97)))%N by lia.
    assert (Hk : (N.to_nat (c - 97) < 6)%nat) by lia.
    revert Hk. generalize (N.to_nat (c - 97)). intros k Hk.
    do 6 (destruct k as [|k]; [cbn; tauto|]). lia.
Qed.

(** A property of the sixteen lower-case hexadecimal digits, by cases. *)
Lemma lower_hex_ind (P : N -> Prop) :
  Forall P [48; 49; 50; 51; 52; 53; 54; 55; 56; 57; 97; 98; 99; 100; 101; 102]%N ->
  forall c, is_lower_hex c = true -> P c.
Proof.
  intros HP c Hc. rewrite Forall_forall in HP. apply HP.
  apply list_elem_of_In, is_lower_hex_cases, Hc.
Qed.

Lemma hex_value_lower (c : N) :
  is_lower_hex c = true -> exists d, hex_value c = Some d /\ 0 <= d < 16.
Proof.
  revert c. apply lower_hex_ind.
  repeat constructor; eexists; (split; [reflexivity|lia]).
Qed.

Lemma scan_hex_lower (r : str) :
  forallb is_lower_hex r = true ->
  forall (acc : Z) (prev : N), prev <> 95%N -> 0 <= acc ->
  exists v, scan_hex acc prev r = Some (v, [])
            /\ 0 <= v < (acc + 1) * 16 ^ Z.of_nat (length r).
Proof.
  induction r as [|c r IH]; intros H acc prev Hp Hacc.
  - simpl. apply N.eqb_neq in Hp. rewrite Hp. exists acc. split; [reflexivity|lia].
  - simpl in H. apply andb_prop in H as [Hc Hr].
    assert (Hc95 : c <> 95%N).
    { revert c Hc. apply lower_hex_ind. repeat constructor; discriminate. }
    destruct (hex_value_lower c Hc) as (d & Hd & Rd).
    cbn [scan_hex]. rewrite (proj2 (N.eqb_neq c 95) Hc95), Hd.
    destruct (IH Hr (acc * 16 + d) c Hc95 ltac:(lia)) as (v & Hv & Rv).
    exists v. split; [exact Hv|].
    cbn [length]. rewrite Nat2Z.inj_succ, Z.pow_succ_r by lia. nia.
Qed.

End HexFacts.

Section UuidFacts.
Context {U : UnicodeDB}.

Lemma int_ascii_lower_hex (s : str) :
  forallb is_lower_hex s = true -> map int_ascii s = s.
Proof.
  induction s as [|c s IH]; simpl; [reflexivity|].
  intros H. apply andb_prop in H as [Hc Hs]. rewrite (IH Hs). f_equal.
  revert c Hc. apply lower_hex_ind. repeat constructor.
Qed.

Lemma skip_cspace_lower_hex (c : N) (r : str) :
  is_lower_hex c = true -> skip_cspace (c :: r) = c :: r.
Proof.
  revert c. apply (lower_hex_ind (fun c => skip_cspace (c :: r) = c :: r)).
  repeat constructor.
Qed.

Lemma split_sign_lower_hex (c : N) (r : str) :
  is_lower_hex c = true -> split_sign (c :: r) = (1, c :: r).
Proof.
  revert c. apply (lower_hex_ind (fun c => split_sign (c :: r) = (1, c :: r))).
  repeat constructor.
Qed.

Lemma skip_prefix16_lower_hex (c : N) (r : str) :
  is_lower_hex c = true -> forallb is_lower_hex r = true ->
  skip_prefix16 (c :: r) = c :: r.
Proof.
  intros Hc Hr. revert c Hc.
  apply (lower_hex_ind (fun c => skip_prefix16 (c :: r) = c :: r)).
  repeat constructor.
  destruct r as [|x r]; [reflexivity|].
  simpl in Hr. apply andb_prop in Hr as [Hx _]. revert x Hx.
  apply (lower_hex_ind (fun x => skip_prefix16 (48%N :: x :: r) = 48%N :: x :: r)).
  repeat constructor.
Qed.

(** [int(h, 16)] reads a non-empty run of lower-case hexadecimal digits. *)
Lemma int16_lower_hex (h : str) :
  h <> [] -> forallb is_lower_hex h = true ->
  exists v, int16 h = Some v /\ 0 <= v < 16 ^ Z.of_nat (length h).
Proof.
  intros Hne Hh. destruct h as [|c r]; [congruence|].
  pose proof Hh as Hh'. simpl in Hh'. apply andb_prop in Hh' as [Hc Hr].
  unfold int16. rewrite (int_ascii_lower_hex _ Hh).
  rewrite (skip_cspace_lower_hex c r Hc), (split_sign_lower_hex c r Hc).
  rewrite (skip_prefix16_lower_hex c r Hc Hr).
  destruct (hex_value_lower c Hc) as (d & -> & _).
  destruct (scan_hex_lower (c :: r) Hh 0 0%N ltac:(discriminate) ltac:(lia))
    as (v & -> & Rv).
  exists v. simpl skip_cspace. cbv iota. split; [f_equal; lia|lia].
Qed.

Lemma dashed_class (h : str) :
  forallb is_lower_hex h = true -> forallb hex_or_dash (dashed h) = true.
Proof.
  intros H.
  assert (Hx : forall s, forallb is_lower_hex s = true -> forallb hex_or_dash s = true).
  { intros s. apply forallb_impl. intros c Hc. unfold hex_or_dash. rewrite Hc.
    reflexivity. }
  unfold dashed. rewrite !forallb_app.
  repeat (apply andb_true_intro; split);
    first [reflexivity | apply Hx; auto using forallb_firstn, forallb_skipn].
Qed.

Lemma hex_or_dash_lacks (a : N) (s : str) :
  hex_or_dash a = false -> forallb hex_or_dash s = true ->
  forallb (fun c => negb (a =? c)%N) s = true.
Proof.
  intros Ha. apply forallb_impl. intros c Hc. apply negb_true_iff, N.eqb_neq.
  intros ->. congruence.
Qed.

Lemma dashed_filter (h : str) :
  length h = 32%nat -> forallb is_lower_hex h = true ->
  List.filter (fun c => negb (45 =? c)%N) (dashed h) = h.
Proof.
  intros Hl H.
  assert (Hx : forall s, forallb is_lower_hex s = true ->
                         List.filter (fun c => negb (45 =? c)%N) s = s).
  { intros s Hs. apply filter_all. revert Hs. apply forallb_impl.
    apply lower_hex_ind. repeat constructor. }
  unfold dashed. rewrite !List.filter_app.
  rewrite (Hx (firstn 8 h)), (Hx (firstn 4 (skipn 8 h))), (Hx (firstn 4 (skipn 12 h))),
    (Hx (firstn 4 (skipn 16 h))), (Hx (skipn 20 h))
    by auto using forallb_firstn, forallb_skipn.
  change (List.filter (fun c => negb (45 =? c)%N) (u "-")) with (@nil N).
  cbn [app].
  do 33 (destruct h as [|? h]; try discriminate Hl). reflexivity.
Qed.

(** [uuid.UUID] accepts the canonical text of thirty-two lower-case
    hexadecimal digits. *)
Lemma uuid_UUID_dashed (h : str) :
  length h = 32%nat -> forallb is_lower_hex h = true ->
  exists v, uuid_UUID (dashed h) = Some v.
Proof.
  intros Hl H. pose proof (dashed_class h H) as Hd. unfold uuid_UUID.
  change (u "urn:") with (117 :: u "rn:")%N. change (u "uuid:") with (117 :: u "uid:")%N.
  rewrite (replace_absent 117 _ _ (dashed h)) by (apply hex_or_dash_lacks; auto).
  rewrite (replace_absent 117 _ _ (dashed h)) by (apply hex_or_dash_lacks; auto).
  rewrite strip_chars_absent.
  2:{ revert Hd. apply forallb_impl. intros c Hc.
      change (u "{}") with [123; 125]%N.
      destruct (mem_cp c [123; 125]%N) eqn:E; [exfalso|reflexivity].
      unfold mem_cp in E. simpl in E.
      destruct (N.eqb_spec c 123) as [E1|_]; [subst c; vm_compute in Hc; discriminate Hc|].
      destruct (N.eqb_spec c 125) as [E2|_]; [subst c; vm_compute in Hc; discriminate Hc|].
      simpl in E. discriminate E. }
  change (u "-") with [45%N]. rewrite replace_single, (dashed_filter h Hl H), Hl.
  simpl negb. cbv iota.
  destruct (int16_lower_hex h) as (v & -> & Rv); [intros ->; discriminate|exact H|].
  rewrite Hl in Rv.
  replace ((0 <=? v) && (v <? 2 ^ 128)) with true; [eexists; reflexivity|].
  symmetry. apply andb_true_intro. split; [apply Z.leb_le|apply Z.ltb_lt]; lia.
Qed.

End UuidFacts.

Section UuidFormat.
Context {U : UnicodeDB}.

Lemma hex_digit_lower (n : Z) : 0 <= n < 16 -> is_lower_hex (hex_digit n) = true.
Proof.
  intros R. replace n with (Z.of_nat (Z.to_nat n)) by lia.
  assert (Hk : (Z.to_nat n < 16)%nat) by lia.
  revert Hk. generalize (Z.to_nat n). intros k Hk.
  do 16 (destruct k as [|k]; [reflexivity|]). lia.
Qed.

Lemma hex32_lower (x : Z) : forallb is_lower_hex (hex32 x) = true.
Proof.
  unfold hex32. apply forallb_forall. intros c Hc.
  apply in_map_iff in Hc as (i & <- & _). apply hex_digit_lower.
  change 15 with (Z.ones 4). rewrite Z.land_ones by lia.
  apply Z.mod_pos_bound. lia.
Qed.

Lemma hex32_length (x : Z) : length (hex32 x) = 32%nat.
Proof. unfold hex32. rewrite length_map, length_seq. reflexivity. Qed.

Lemma is_uuid_format_dashed (h : str) :
  length h = 32%nat -> forallb is_lower_hex h = true -> is_uuid_format (dashed h) = true.
Proof.
  intros Hl H.
  do 33 (destruct h as [|? h]; try discriminate Hl).
  cbn [forallb] in H.
  repeat (apply andb_prop in H; destruct H as [? H]).
  unfold is_uuid_format, dashed.
  change (u "-") with [45%N].
  cbn -[is_lower_hex].
  repeat match goal with
         | Hx : is_lower_hex ?c = true |- _ => rewrite Hx; clear Hx
         end.
  reflexivity.
Qed.

(** The text of a generated identifier is in the canonical format, and
    [uuid.UUID] accepts it. *)
Lemma uuid_str_format (x : Z) : is_uuid_format (uuid_str x) = true.
Proof. apply (is_uuid_format_dashed (hex32 x)); [apply hex32_length|apply hex32_lower]. Qed.

Lemma uuid_UUID_uuid_str (x : Z) : exists v, uuid_UUID (uuid_str x) = Some v.
Proof. apply (uuid_UUID_dashed (hex32 x)); [apply hex32_length|apply hex32_lower]. Qed.

Lemma uuid_str_nonempty (x : Z) : uuid_str x <> [].
Proof.
  intros E. pose proof (uuid_str_format x) as F. rewrite E in F. discriminate F.
Qed.

End UuidFormat.

(** ** The creation pipeline, step by step *)

Section PipelineFacts.
Context {U : UnicodeDB}.

(** The precondition gate refuses the request before any rule is evaluated. *)
Lemma create_new_task_gate (name : str) (ctx : TaskCreationContext) (st : State) :
  validate_task_creation_prerequisites name (ctx_user_id ctx) = false ->
  create_new_task name ctx st = (Raise gate_error, st).
Proof.
  intros H. unfold create_new_task, try_except, mbind, M_bind, lift,
    _validate_input_parameters.
  rewrite H. reflexivity.
Qed.

Lemma validate_task_creation_run (name : str) (ctx : TaskCreationContext) (st : State) :
  validate_task_creation name ctx st
  = (Ok {| is_valid := Nat.eqb (length (all_violations name ctx)) 0;
           violations := all_violations name ctx;
           validated_at := clock st (ticks st) |}, tick st).
Proof.
  unfold validate_task_creation, ValidationResult_init, mbind, M_bind, now, mret, M_ret.
  destruct (all_violations name ctx); reflexivity.
Qed.

(** Any violation, of any severity, stops the creation. *)
Lemma create_new_task_invalid (name : str) (ctx : TaskCreationContext) (st : State) :
  validate_task_creation_prerequisites name (ctx_user_id ctx) = true ->
  all_violations name ctx <> [] ->
  create_new_task name ctx st = (Raise (validation_failed name ctx), tick st).
Proof.
  intros Hg Hv. unfold create_new_task, try_except, mbind, M_bind, lift,
    _validate_input_parameters.
  rewrite Hg, validate_task_creation_run. cbn [negb is_valid].
  unfold validation_failed, get_error_messages. cbn [violations].
  destruct (all_violations name ctx) eqn:E; [congruence|]. reflexivity.
Qed.

Lemma check_security_constraints_run (text : str) (ctx : TaskCreationContext)
    (st : State) (a : SecurityAction) :
  _determine_recommended_action (detect_threats text ctx) = Ok a ->
  check_security_constraints text ctx st
  = (Ok {| is_passed := Nat.eqb (length (detect_threats text ctx)) 0;
           detected_threats := detect_threats text ctx;
           recommended_action := a;
           checked_at := clock st (ticks st) |}, tick st).
Proof.
  intros H. unfold check_security_constraints, mbind, M_bind, lift. rewrite H.
  reflexivity.
Qed.

(** With no violation and no threat the request reaches the factory, three
    clock readings later. *)
Lemma create_new_task_clean (name : str) (ctx : TaskCreationContext) (st : State) :
  validate_task_creation_prerequisites name (ctx_user_id ctx) = true ->
  all_violations name ctx = [] ->
  detect_threats (fst (sanitize_text name STRICT)) ctx = [] ->
  create_new_task name ctx st
  = try_except (create_task_with_event (fst (sanitize_text name STRICT)) (ctx_user_id ctx))
               create_new_task_handler (tick (tick (tick st))).
Proof.
  intros Hg Hv Ht. unfold create_new_task, try_except, mbind, M_bind, lift,
    _validate_input_parameters.
  rewrite Hg, validate_task_creation_run, Hv. cbn [negb is_valid length Nat.eqb mret M_ret].
  rewrite sanitize_task_input_run. cbn [clean_input].
  change (default STRICT (Some STRICT)) with STRICT.
  rewrite (check_security_constraints_run _ _ _ ALLOW) by (rewrite Ht; reflexivity).
  rewrite Ht. reflexivity.
Qed.

End PipelineFacts.

(** Decides the [isinstance] tests of the goal, which depend on the class of
    the exception only. *)
Ltac eval_isinstance :=
  repeat match goal with
         | |- context [isinstance ?e ?c] =>
             let b := eval vm_compute in (isinstance e c) in
             change (isinstance e c) with b
         end;
  cbv beta iota.

Section RejectionFacts.
Context {U : UnicodeDB}.

Lemma CreateTaskErrorResponse_init_run (code : error_code) (message : str)
    (details : list ErrorDetail) (request_id : option str) (st : State) :
  message <> [] ->
  CreateTaskErrorResponse_init code message details request_id st
  = (Ok {| err_error_code := code; err_error_message := message;
           err_details := details; err_timestamp := clock st (ticks st);
           err_request_id := request_id |}, tick st).
Proof.
  intros H. unfold CreateTaskErrorResponse_init.
  rewrite bool_decide_eq_false_2 by exact H. reflexivity.
Qed.

Lemma create_task_gate (command : CreateTaskCommand) (st : State) :
  validate_task_creation_prerequisites (cmd_task_name command) (cmd_user_id command)
  = false ->
  create_task command st = (Ok (Failed (gate_payload command st)), tick st).
Proof.
  intros H. unfold create_task, try_except at 1, mbind, M_bind.
  rewrite create_new_task_gate by exact H. cbv beta iota.
  eval_isinstance.
  unfold from_infrastructure_error.
  rewrite CreateTaskErrorResponse_init_run by (vm_compute; discriminate).
  reflexivity.
Qed.

Lemma create_task_invalid (command : CreateTaskCommand) (st : State) :
  validate_task_creation_prerequisites (cmd_task_name command) (cmd_user_id command)
  = true ->
  all_violations (cmd_task_name command) (to_creation_context command) <> [] ->
  create_task command st = (Ok (Failed (validation_payload command st)), tick (tick st)).
Proof.
  intros Hg Hv. unfold create_task, try_except at 1, mbind, M_bind.
  rewrite create_new_task_invalid by assumption. cbv beta iota.
  eval_isinstance.
  unfold from_validation_exception, validation_failed.
  cbn [exn_message exn_violations validation_exn].
  rewrite CreateTaskErrorResponse_init_run by (vm_compute; discriminate).
  reflexivity.
Qed.


(** The SQL patterns of the validator find [drop table] wherever it stands. *)
Lemma validate_security_rules_drop_table (name : str) :
  contains (u "' ; DROP TABLE tasks;") name = true ->
  In br005 (_validate_security_rules name).
Proof.
  intros H. apply contains_split in H as (pre & post & ->).
  unfold _validate_security_rules.
  assert (E : existsb (fun pattern =>
                         search pattern (pre ++ u "' ; DROP TABLE tasks;" ++ post))
                      validation_sql_patterns = true).
  { apply existsb_exists. exists (cat_list [word_i "drop"; ws_plus; word_i "table"]).
    split; [right; left; reflexivity|].
    change (u "' ; DROP TABLE tasks;") with (u "' ; " ++ u "DROP TABLE tasks;").
    rewrite <- (app_assoc (u "' ; ")), (app_assoc pre).
    apply search_app. unfold match_at. vm_compute. discriminate. }
  rewrite E. apply in_or_app. right. left. reflexivity.
Qed.

Lemma all_violations_security (name : str) (ctx : TaskCreationContext)
    (v : ValidationViolation) :
  In v (_validate_security_rules name) -> all_violations name ctx <> [].
Proof.
  intros H E. unfold all_violations in E.
  apply app_eq_nil in E as [_ E]. apply app_eq_nil in E as [E _].
  rewrite E in H. destruct H.
Qed.

Lemma all_violations_business (name : str) (ctx : TaskCreationContext)
    (v : ValidationViolation) :
  In v (_validate_business_rules name) -> all_violations name ctx <> [].
Proof.
  intros H E. unfold all_violations in E.
  apply app_eq_nil in E as [_ E]. apply app_eq_nil in E as [_ E].
  apply app_eq_nil in E as [E _]. rewrite E in H. destruct H.
Qed.

End RejectionFacts.

(** ** Rejected requests *)

Section RejectionClaims.
Context {U : UnicodeDB}.

(** C2 (amended).  A request whose name contains [' ; DROP TABLE tasks;] is
    rejected, but never with SECURITY_ERROR: the business-rule validator
    runs before the security stage and its SQL pattern [drop\s+table]
    raises the BR-005 violation, so the payload has VALIDATION_ERROR; when
    the precondition gate refuses the request first (trimmed name longer
    than 100 code points, or blank user id) it has INFRASTRUCTURE_ERROR. *)
Theorem drop_table_name_rejected (command : CreateTaskCommand) (st : State) :
  contains (u "' ; DROP TABLE tasks;") (cmd_task_name command) = true ->
  exists (r : CreateTaskErrorResponse) (st' : State),
    create_task command st = (Ok (Failed r), st')
    /\ err_error_code r
       = (if validate_task_creation_prerequisites (cmd_task_name command)
                                                  (cmd_user_id command)
          then VALIDATION_ERROR else INFRASTRUCTURE_ERROR)
    /\ err_error_code r <> SECURITY_ERROR.
Proof.
  intros H.
  destruct (validate_task_creation_prerequisites (cmd_task_name command)
                                                 (cmd_user_id command)) eqn:G.
  - eexists _, _. split; [apply create_task_invalid; [exact G|];
      eapply all_violations_security, validate_security_rules_drop_table, H|].
    split; [reflexivity|discriminate].
  - eexists _, _. split; [apply create_task_gate, G|]. split; [reflexivity|discriminate].
Qed.

(** C3 (amended).  For the name [admin access] and a user other than
    [admin] and [system], the permission-constraint detector reports one
    MEDIUM PRIVILEGE_ESCALATION threat, and the creation is rejected all the
    same: the business-rule validator reports the reserved word [admin]
    (BR-RESERVED, MEDIUM) and any violation stops the creation, with
    VALIDATION_ERROR (INFRASTRUCTURE_ERROR when the user id is blank). *)
Theorem admin_access_flagged_and_rejected (command : CreateTaskCommand) (st : State) :
  cmd_task_name command = u "admin access" ->
  cmd_user_id command <> u "admin" ->
  cmd_user_id command <> u "system" ->
  _check_permission_constraints (cmd_task_name command) (to_creation_context command)
  = [threat "PRIVILEGE_ESCALATION"
       (u "システム管理者用キーワード「admin」の使用が制限されています") MEDIUM]
  /\ exists (r : CreateTaskErrorResponse) (st' : State),
       create_task command st = (Ok (Failed r), st')
       /\ err_error_code r
          = (if validate_task_creation_prerequisites (cmd_task_name command)
                                                     (cmd_user_id command)
             then VALIDATION_ERROR else INFRASTRUCTURE_ERROR).
Proof.
  intros Hn Ha Hs. split.
  - unfold _check_permission_constraints, str_eqb, to_creation_context.
    cbn [ctx_user_id]. rewrite !bool_decide_eq_false_2 by assumption.
    rewrite Hn. vm_compute. reflexivity.
  - destruct (validate_task_creation_prerequisites (cmd_task_name command)
                                                   (cmd_user_id command)) eqn:G.
    + eexists _, _. split; [apply create_task_invalid; [exact G|]|reflexivity].
      apply (all_violations_business _ _
               (violation (u "BR-RESERVED")
                  (u "タスク名に予約語「admin」は使用できません") VS_MEDIUM "task_name")).
      rewrite Hn. vm_compute. left. reflexivity.
    + eexists _, _. split; [apply create_task_gate, G|reflexivity].
Qed.



End RejectionClaims.

Lemma drop_table_name_rejected_witness :
  contains (u "' ; DROP TABLE tasks;")
           (cmd_task_name (sample_command "x' ; DROP TABLE tasks; --" "user-123")) = true
  /\ exists (r : CreateTaskErrorResponse) (st' : State),
       @create_task ascii_db (sample_command "x' ; DROP TABLE tasks; --" "user-123")
         ticking_world = (Ok (Failed r), st')
       /\ err_error_code r
          = (if validate_task_creation_prerequisites
                  (cmd_task_name (sample_command "x' ; DROP TABLE tasks; --" "user-123"))
                  (cmd_user_id (sample_command "x' ; DROP TABLE tasks; --" "user-123"))
             then VALIDATION_ERROR else INFRASTRUCTURE_ERROR)
       /\ err_error_code r <> SECURITY_ERROR.
Proof.
  assert (H : contains (u "' ; DROP TABLE tasks;")
                (cmd_task_name (sample_command "x' ; DROP TABLE tasks; --" "user-123"))
              = true) by (vm_compute; reflexivity).
  split; [exact H|].
  exact (@drop_table_name_rejected ascii_db _ ticking_world H).
Defined.

(** The request of the claim C2 is answered with VALIDATION_ERROR. *)
Lemma drop_table_name_counterexample :
  contains (u "' ; DROP TABLE tasks;")
           (cmd_task_name (sample_command "' ; DROP TABLE tasks;" "user-123")) = true
  /\ exists (r : CreateTaskErrorResponse) (st' : State),
       @create_task ascii_db (sample_command "' ; DROP TABLE tasks;" "user-123")
         ticking_world = (Ok (Failed r), st')
       /\ err_error_code r = VALIDATION_ERROR
       /\ err_error_code r <> SECURITY_ERROR.
Proof.
  split; [vm_compute; reflexivity|].
  eexists _, _.
  split; [apply (@create_task_invalid ascii_db); vm_compute; [reflexivity|discriminate]|].
  split; [reflexivity|discriminate].
Qed.

Lemma admin_access_flagged_and_rejected_witness :
  cmd_task_name (sample_command "admin access" "user-123") = u "admin access"
  /\ cmd_user_id (sample_command "admin access" "user-123") <> u "admin"
  /\ cmd_user_id (sample_command "admin access" "user-123") <> u "system"
  /\ @_check_permission_constraints ascii_db
       (cmd_task_name (sample_command "admin access" "user-123"))
       (to_creation_context (sample_command "admin access" "user-123"))
     = [threat "PRIVILEGE_ESCALATION"
          (u "システム管理者用キーワード「admin」の使用が制限されています") MEDIUM]
  /\ exists (r : CreateTaskErrorResponse) (st' : State),
       @create_task ascii_db (sample_command "admin access" "user-123") ticking_world
       = (Ok (Failed r), st')
       /\ err_error_code r
          = (if validate_task_creation_prerequisites
                  (cmd_task_name (sample_command "admin access" "user-123"))
                  (cmd_user_id (sample_command "admin access" "user-123"))
             then VALIDATION_ERROR else INFRASTRUCTURE_ERROR).
Proof.
  assert (H1 : cmd_task_name (sample_command "admin access" "user-123")
               = u "admin access") by reflexivity.
  assert (H2 : cmd_user_id (sample_command "admin access" "user-123") <> u "admin")
    by (vm_compute; discriminate).
  assert (H3 : cmd_user_id (sample_command "admin access" "user-123") <> u "system")
    by (vm_compute; discriminate).
  split; [exact H1|]. split; [exact H2|]. split; [exact H3|].
  exact (@admin_access_flagged_and_rejected ascii_db _ ticking_world H1 H2 H3).
Defined.

(** The request of the claim C3 does not succeed. *)
Lemma admin_access_counterexample :
  exists (r : CreateTaskErrorResponse) (st' : State),
    @create_task ascii_db (sample_command "admin access" "user-123") ticking_world
    = (Ok (Failed r), st')
    /\ err_error_code r = VALIDATION_ERROR.
Proof.
  eexists _, _.
  split; [apply (@create_task_invalid ascii_db); vm_compute; [reflexivity|discriminate]|].
  reflexivity.
Qed.



(** ** Accepted requests *)

Section CreationFacts.
Context {U : UnicodeDB}.

Lemma TaskId_init_uuid_str (x : Z) :
  TaskId_init (uuid_str x) = Ok {| tid_value := uuid_str x |}.
Proof.
  unfold TaskId_init.
  rewrite bool_decide_eq_false_2 by apply uuid_str_nonempty.
  destruct (uuid_UUID_uuid_str x) as [v ->]. reflexivity.
Qed.

(** [TaskId.generate] never fails. *)
Lemma TaskId_generate_run (st : State) :
  TaskId_generate st
  = (Ok {| tid_value := uuid_str (uuid4_int (entropy st (draws st))) |}, draw st).
Proof.
  unfold TaskId_generate, mbind, M_bind, uuid4, lift.
  rewrite TaskId_init_uuid_str. reflexivity.
Qed.

Lemma TaskStatus_pending_run : TaskStatus_pending = Ok {| enum_value := PENDING |}.
Proof. vm_compute. reflexivity. Qed.

(** [Task.create] reads the clock twice, and fails when the second reading
    is earlier than the first. *)
Lemma Task_create_run (name : TaskName) (user_id : str) (st : State) :
  Task_create name user_id st
  = (if clock st (ticks st) >? clock st (S (ticks st))
     then Raise inv004 else Ok (created_task name st),
     tick (tick (draw st))).
Proof.
  unfold Task_create, mbind, M_bind. rewrite TaskId_generate_run.
  unfold lift. rewrite TaskStatus_pending_run.
  unfold CreatedAt_init, UpdatedAt_init, DateTimeValue_init, Task_init, mbind, M_bind,
    now, mret, M_ret, lift, _validate_invariants, DateTimeValue_gt.
  cbn [dtv_value clock ticks tick draw].
  destruct (clock st (ticks st) >? clock st (S (ticks st))); reflexivity.
Qed.

Lemma create_domain_event_run (t : Task) (user_id : str) (st : State) :
  create_domain_event t user_id st = (Ok (created_event t user_id st), tick (draw st)).
Proof. reflexivity. Qed.

Lemma create_task_with_event_run (name user_id : str) (tn : TaskName) (st : State) :
  TaskName_init name = Ok tn ->
  create_task_with_event name user_id st
  = if clock st (ticks st) >? clock st (S (ticks st))
    then (Raise (factory_exn "イベント付きタスク作成に失敗しました: "
                   (factory_exn "タスク作成に失敗しました: " inv004)),
          tick (tick (draw st)))
    else (Ok (creation_result tn user_id st), tick (draw (tick (tick (draw st))))).
Proof.
  intros Hn. unfold create_task_with_event, TaskFactory_create_task, try_except,
    mbind, M_bind, lift.
  rewrite Hn, Task_create_run.
  destruct (clock st (ticks st) >? clock st (S (ticks st))); [reflexivity|].
  rewrite create_domain_event_run. reflexivity.
Qed.

(** [publish] succeeds on every event that has an identifier. *)
Lemma publish_run (event : TaskCreatedEvent) (st : State) :
  ev_event_id event <> [] -> publish event st = (Ok tt, published_state event st).
Proof.
  intros H. unfold publish, try_except, mbind, M_bind.
  rewrite bool_decide_eq_false_2 by exact H. reflexivity.
Qed.

Lemma CreateTaskResponse_init_run (x : Z) (name st message : str) (created : datetime)
    (request_id : option str) :
  name <> [] -> st <> [] -> message <> [] ->
  CreateTaskResponse_init (uuid_str x) name st created message request_id
  = Ok {| resp_task_id := uuid_str x; resp_task_name := name; resp_status := st;
          resp_created_at := created; resp_message := message;
          resp_request_id := request_id |}.
Proof.
  intros Hn Hs Hm. unfold CreateTaskResponse_init.
  rewrite !bool_decide_eq_false_2 by (assumption || apply uuid_str_nonempty).
  destruct (uuid_UUID_uuid_str x) as [v ->]. reflexivity.
Qed.

End CreationFacts.

Section CreationClaims.
Context {U : UnicodeDB}.

(** A request with no violation and no threat is created, provided the
    clock does not go backwards between the two readings of [Task.create]. *)
Lemma create_task_accepted (command : CreateTaskCommand) (tn : TaskName) (st : State) :
  validate_task_creation_prerequisites (cmd_task_name command) (cmd_user_id command)
  = true ->
  all_violations (cmd_task_name command) (to_creation_context command) = [] ->
  detect_threats (fst (sanitize_text (cmd_task_name command) STRICT))
                 (to_creation_context command) = [] ->
  TaskName_init (fst (sanitize_text (cmd_task_name command) STRICT)) = Ok tn ->
  tn_value tn <> [] ->
  (clock st (3 + ticks st)%nat >? clock st (4 + ticks st)%nat) = false ->
  create_task command st
  = (Ok (Created (created_payload command tn st)), created_state command tn st).
Proof.
  intros Hg Hv Ht Hn Hne Hc.
  unfold create_task, try_except at 1, mbind, M_bind.
  rewrite create_new_task_clean by assumption.
  unfold try_except. rewrite (create_task_with_event_run _ _ tn) by exact Hn.
  change (clock (tick (tick (tick st))) (ticks (tick (tick (tick st)))))
    with (clock st (3 + ticks st)%nat).
  change (clock (tick (tick (tick st))) (S (ticks (tick (tick (tick st))))))
    with (clock st (4 + ticks st)%nat).
  rewrite Hc. cbv beta iota. rewrite save_returns. cbv beta iota.
  rewrite publish_run by apply uuid_str_nonempty.
  unfold lift, from_task_creation_result.
  cbn [tcr_task creation_result task_id task_name status created_at created_task
       tid_value TaskStatus_str enum_value TaskStatusEnum_value dtv_value].
  rewrite CreateTaskResponse_init_run;
    [reflexivity | exact Hne | vm_compute; discriminate | vm_compute; discriminate].
Qed.

(** When the clock goes backwards there, the request fails in the factory
    and the caller receives INFRASTRUCTURE_ERROR. *)
Lemma create_task_clock_backwards (command : CreateTaskCommand) (tn : TaskName)
    (st : State) :
  validate_task_creation_prerequisites (cmd_task_name command) (cmd_user_id command)
  = true ->
  all_violations (cmd_task_name command) (to_creation_context command) = [] ->
  detect_threats (fst (sanitize_text (cmd_task_name command) STRICT))
                 (to_creation_context command) = [] ->
  TaskName_init (fst (sanitize_text (cmd_task_name command) STRICT)) = Ok tn ->
  (clock st (3 + ticks st)%nat >? clock st (4 + ticks st)%nat) = true ->
  exists (r : CreateTaskErrorResponse) (st' : State),
    create_task command st = (Ok (Failed r), st')
    /\ err_error_code r = INFRASTRUCTURE_ERROR.
Proof.
  intros Hg Hv Ht Hn Hc.
  unfold create_task, try_except at 1, mbind, M_bind.
  rewrite create_new_task_clean by assumption.
  unfold try_except. rewrite (create_task_with_event_run _ _ tn) by exact Hn.
  change (clock (tick (tick (tick st))) (ticks (tick (tick (tick st)))))
    with (clock st (3 + ticks st)%nat).
  change (clock (tick (tick (tick st))) (S (ticks (tick (tick (tick st))))))
    with (clock st (4 + ticks st)%nat).
  rewrite Hc. cbv beta iota. unfold create_new_task_handler.
  eval_isinstance. unfold raise. cbv beta iota.
  eval_isinstance. unfold from_infrastructure_error.
  rewrite CreateTaskErrorResponse_init_run by (vm_compute; discriminate).
  eexists _, _. split; reflexivity.
Qed.

End CreationClaims.

Section MeetingSlides.
Context {U : UnicodeDB}.

(** The name passes the gate, breaks no rule, is left unchanged by the
    sanitizer and raises no threat. *)
Lemma meeting_slides_clean (command : CreateTaskCommand) :
  cmd_task_name command = u "Prepare meeting slides" ->
  cmd_user_id command = u "user-123" ->
  validate_task_creation_prerequisites (cmd_task_name command) (cmd_user_id command)
  = true
  /\ all_violations (cmd_task_name command) (to_creation_context command) = []
  /\ detect_threats (fst (sanitize_text (cmd_task_name command) STRICT))
                    (to_creation_context command) = []
  /\ TaskName_init (fst (sanitize_text (cmd_task_name command) STRICT))
     = Ok meeting_slides.
Proof.
  destruct command as [name user rid ts ci]. cbn [cmd_task_name cmd_user_id].
  intros -> ->. repeat split; vm_compute; reflexivity.
Qed.

(** C5 (amended).  The request with name [Prepare meeting slides] and user
    [user-123] is created whenever the clock does not go backwards between
    the two readings that stamp the task.  The payload's status is the
    value of the enum member PENDING, the text 未完了, its task id is in
    UUID format, and the stored task has [created_at <= updated_at]: each
    is its own reading of the clock. *)
Theorem meeting_slides_created (command : CreateTaskCommand) (st : State) :
  cmd_task_name command = u "Prepare meeting slides" ->
  cmd_user_id command = u "user-123" ->
  clock st (3 + ticks st)%nat <= clock st (4 + ticks st)%nat ->
  exists (r : CreateTaskResponse) (st' : State) (d : task_data),
    create_task command st = (Ok (Created r), st')
    /\ resp_status r = TaskStatusEnum_value PENDING
    /\ resp_status r = u "未完了"
    /\ is_uuid_format (resp_task_id r) = true
    /\ storage st' !! resp_task_id r = Some d
    /\ fromisoformat (td_created_at d) = resp_created_at r
    /\ fromisoformat (td_created_at d) = clock st (3 + ticks st)%nat
    /\ fromisoformat (td_updated_at d) = clock st (4 + ticks st)%nat
    /\ fromisoformat (td_created_at d) <= fromisoformat (td_updated_at d).
Proof.
  intros Hn Hu Hc.
  destruct (meeting_slides_clean command Hn Hu) as (Hg & Hv & Ht & Hi).
  exists (created_payload command meeting_slides st),
         (created_state command meeting_slides st).
  eexists. split.
  - apply create_task_accepted; try assumption.
    + vm_compute. discriminate.
    + rewrite Z.gtb_ltb. apply Z.ltb_ge. exact Hc.
  - split; [vm_compute; reflexivity|]. split; [reflexivity|].
    split; [apply uuid_str_format|].
    split; [apply lookup_insert_eq|].
    repeat split. exact Hc.
Qed.

End MeetingSlides.

Lemma meeting_slides_created_witness :
  cmd_task_name (sample_command "Prepare meeting slides" "user-123")
  = u "Prepare meeting slides"
  /\ cmd_user_id (sample_command "Prepare meeting slides" "user-123") = u "user-123"
  /\ clock ticking_world (3 + ticks ticking_world)%nat
     <= clock ticking_world (4 + ticks ticking_world)%nat
  /\ exists (r : CreateTaskResponse) (st' : State) (d : task_data),
       @create_task ascii_db (sample_command "Prepare meeting slides" "user-123")
         ticking_world = (Ok (Created r), st')
       /\ resp_status r = TaskStatusEnum_value PENDING
       /\ resp_status r = u "未完了"
       /\ is_uuid_format (resp_task_id r) = true
       /\ storage st' !! resp_task_id r = Some d
       /\ fromisoformat (td_created_at d) = resp_created_at r
       /\ fromisoformat (td_created_at d)
          = clock ticking_world (3 + ticks ticking_world)%nat
       /\ fromisoformat (td_updated_at d)
          = clock ticking_world (4 + ticks ticking_world)%nat
       /\ fromisoformat (td_created_at d) <= fromisoformat (td_updated_at d).
Proof.
  assert (H1 : cmd_task_name (sample_command "Prepare meeting slides" "user-123")
               = u "Prepare meeting slides") by reflexivity.
  assert (H2 : cmd_user_id (sample_command "Prepare meeting slides" "user-123")
               = u "user-123") by reflexivity.
  assert (H3 : clock ticking_world (3 + ticks ticking_world)%nat
               <= clock ticking_world (4 + ticks ticking_world)%nat)
    by (vm_compute; discriminate).
  split; [exact H1|]. split; [exact H2|]. split; [exact H3|].
  exact (@meeting_slides_created ascii_db _ ticking_world H1 H2 H3).
Defined.

(** The request of the claim C5, on a clock that advances: the status of the
    payload is not the text [pending], and the stored task does not have
    [created_at] equal to [updated_at]. *)
Lemma meeting_slides_counterexample :
  exists (r : CreateTaskResponse) (st' : State) (d : task_data),
    @create_task ascii_db (sample_command "Prepare meeting slides" "user-123")
      ticking_world = (Ok (Created r), st')
    /\ resp_status r <> u "pending"
    /\ storage st' !! resp_task_id r = Some d
    /\ td_created_at d <> td_updated_at d.
Proof.
  eexists _, _, _. split.
  - apply (@create_task_accepted ascii_db _ meeting_slides);
      vm_compute; first [reflexivity | discriminate].
  - split; [vm_compute; discriminate|].
    split; [apply lookup_insert_eq|].
    vm_compute. discriminate.
Qed.
